(** * conda compare: the reconciliation engine and the diff reporter

    A shallow embedding of [conda/cli/main_compare.py]:

    - [compare_packages] (SpecMatcher): matches an inventory of installed
      packages against an ordered list of specification strings;
    - [display_table] (InventoryDiffReporter): renders the text produced by
      the external line-diff utility as a three-column table;
    - [compare_envs]: the surrounding driver, with its temporary files.

    Python strings are modelled by [string]; its characters stand for the
    code points U+0000..U+00FF, so the two line separators U+2028 and U+2029
    of [str.splitlines] lie outside the modelled alphabet.  A Python
    exception is a value of [Exn]; a call that may raise returns a
    [result]. *)

From stdpp Require Import gmap strings list fin_maps.
From Stdlib Require Import ZArith Ascii.
From Stdlib Require Import Sorting.Sorted.

Local Open Scope Z_scope.

(** ** Exceptions and fallible computations *)

Inductive Exn : Type :=
  | InvalidMatchSpec (spec : string)
  | SystemExit (code : Z)
  | CalledProcessError (cmd : list string)
  | FileNotFoundError (path : string)
  | UnicodeDecodeError
  | OSError.

Inductive result (A : Type) : Type :=
  | Ok (a : A)
  | Raise (e : Exn).
Arguments Ok {A} a.
Arguments Raise {A} e.

#[global] Instance result_ret : MRet result := fun A a => Ok a.
#[global] Instance result_bind : MBind result := fun A B f m =>
  match m with
  | Ok a => f a
  | Raise e => Raise e
  end.

Definition is_Ok {A} (r : result A) : Prop :=
  match r with Ok _ => True | Raise _ => False end.

(** ** Python string primitives used by the module *)

Module Py.

(** [s.startswith(c)] for a one-character prefix [c]. *)
Definition startswith (s : string) (c : ascii) : bool :=
  match s with
  | String a _ => bool_decide (a = c)
  | EmptyString => false
  end.

(** [s[n:]]: slicing never raises, a short string yields [""]. *)
Fixpoint slice_from (n : nat) (s : string) : string :=
  match n, s with
  | O, _ => s
  | S n', String _ s' => slice_from n' s'
  | S _, EmptyString => EmptyString
  end.

Fixpoint spaces (n : nat) : string :=
  match n with
  | O => EmptyString
  | S n' => String " " (spaces n')
  end.

(** The format specification [{s:<w}]: left-aligned, padded with spaces
    to width [w], never truncated. *)
Definition ljust (w : nat) (s : string) : string :=
  s +:+ spaces (w - String.length s).

(** The line boundaries of [str.splitlines] below U+0100. *)
Definition is_linebreak (c : ascii) : bool :=
  match c with
  | "010" | "013" | "011" | "012" | "028" | "029" | "030" | "133" => true
  | _ => false
  end%char.

(** [splitlines_go after_cr cur s]: [cur] is the line read so far and
    [after_cr] records that the previous character was a carriage
    return, so that a line feed directly after it belongs to the same
    boundary. *)
Fixpoint splitlines_go (after_cr : bool) (cur s : string) : list string :=
  match s with
  | EmptyString => match cur with EmptyString => [] | _ => [cur] end
  | String c s' =>
      if after_cr && bool_decide (c = "010"%char) then
        splitlines_go false cur s'
      else if is_linebreak c then
        cur :: splitlines_go (bool_decide (c = "013"%char)) EmptyString s'
      else
        splitlines_go false (cur +:+ String c EmptyString) s'
  end.

Definition splitlines (s : string) : list string :=
  splitlines_go false EmptyString s.

(** [str.isspace] on one character, below U+0100. *)
Definition isspace (c : ascii) : bool :=
  match c with
  | "009" | "010" | "011" | "012" | "013"
  | "028" | "029" | "030" | "031" | " " | "133" | "160" => true
  | _ => false
  end%char.

Fixpoint lstrip_by (p : ascii -> bool) (s : string) : string :=
  match s with
  | String c s' => if p c then lstrip_by p s' else s
  | EmptyString => EmptyString
  end.

Definition rstrip_by (p : ascii -> bool) (s : string) : string :=
  String.rev (lstrip_by p (String.rev s)).

(** [s.strip()] *)
Definition strip (s : string) : string :=
  rstrip_by isspace (lstrip_by isspace s).

(** ["\n".join(lines)] followed by a final newline, as a line-per-entry
    text stream is written. *)
Fixpoint unlines (ls : list string) : string :=
  match ls with
  | [] => EmptyString
  | l :: ls' => l +:+ String "010" (unlines ls')
  end.

End Py.

(** ** [posixpath.dirname] and [posixpath.join] *)

Module posixpath.

Definition is_sep (c : ascii) : bool := bool_decide (c = "/"%char).

Fixpoint all_sep (s : string) : bool :=
  match s with
  | String c s' => is_sep c && all_sep s'
  | EmptyString => true
  end.

(** [head = p[:p.rfind('/') + 1]]: everything up to and including the
    last separator. *)
Definition head_of (p : string) : string :=
  String.rev (Py.lstrip_by (fun c => negb (is_sep c)) (String.rev p)).

Definition dirname (p : string) : string :=
  let head := head_of p in
  if negb (bool_decide (head = EmptyString)) && negb (all_sep head)
  then Py.rstrip_by is_sep head
  else head.

Definition endswith_sep (s : string) : bool :=
  match String.rev s with
  | String c _ => is_sep c
  | EmptyString => false
  end.

Definition join1 (path b : string) : string :=
  if Py.startswith b "/" then b
  else if bool_decide (path = EmptyString) || endswith_sep path then path +:+ b
  else path +:+ "/" +:+ b.

Definition join (a : string) (p : list string) : string :=
  foldl join1 a p.

End posixpath.

(** ** Data model of the reconciliation engine *)

Module PackageRecord.
Record t : Type := mk { name : string; version : string; build : string }.
End PackageRecord.

(** [conda.models.match_spec.MatchSpec] is imported by [compare_packages]
    but defined elsewhere; the three operations the function uses form
    this interface.  [MatchSpec_new pkg] is the constructor call
    [MatchSpec(pkg)], which raises on text it cannot parse. *)
Class MatchSpecAPI : Type := {
  MatchSpec : Type;
  MatchSpec_new : string -> result MatchSpec;
  MatchSpec_name : MatchSpec -> string;
  MatchSpec_match : MatchSpec -> PackageRecord.t -> bool
}.

Definition success_msg : string :=
  "Success. All the packages in the " +:+
  "specification file are present in the environment " +:+
  "with matching version and build string.".

Definition not_found_line (name : string) : string :=
  name +:+ " not found".

Definition running_pkg (active_pkg : PackageRecord.t) : string :=
  PackageRecord.name active_pkg +:+ "==" +:+
  PackageRecord.version active_pkg +:+ "=" +:+
  PackageRecord.build active_pkg.

Definition mismatch_line (name pkg : string) (active_pkg : PackageRecord.t)
  : string :=
  name +:+ " found but mismatch. Specification pkg: " +:+ pkg +:+
  ", Running pkg: " +:+ running_pkg active_pkg.

(** The two local variables the loop of [compare_packages] updates. *)
Record Acc : Type := mkAcc { output : list string; miss : bool }.

Section SpecMatcher.
Context `{MatchSpecAPI}.

(** One iteration of [for pkg in specification_pkgs]. *)
Definition compare_step (active_pkgs : gmap string PackageRecord.t)
    (acc : Acc) (pkg : string) : result Acc :=
  pkg_spec ← MatchSpec_new pkg;
  let name := MatchSpec_name pkg_spec in
  match active_pkgs !! name with
  | Some active_pkg =>
      if negb (MatchSpec_match pkg_spec active_pkg) then
        Ok {| miss := true;
              output := output acc ++ [mismatch_line name pkg active_pkg] |}
      else Ok acc
  | None =>
      Ok {| miss := true; output := output acc ++ [not_found_line name] |}
  end.

Fixpoint compare_loop (active_pkgs : gmap string PackageRecord.t)
    (acc : Acc) (specification_pkgs : list string) : result Acc :=
  match specification_pkgs with
  | [] => Ok acc
  | pkg :: rest =>
      acc' ← compare_step active_pkgs acc pkg;
      compare_loop active_pkgs acc' rest
  end.

Definition compare_packages (active_pkgs : gmap string PackageRecord.t)
    (specification_pkgs : list string) : result (Z * list string) :=
  acc ← compare_loop active_pkgs
           {| output := []; miss := false |} specification_pkgs;
  let output :=
    if negb (miss acc) then output acc ++ [success_msg] else output acc in
  Ok (Z.b2z (miss acc), output).

End SpecMatcher.

(** The dictionary comprehension [{pkg.name: pkg for pkg in ...}] of
    [execute]: records are inserted in list order, a later record
    replacing an earlier one of the same name. *)
Definition active_pkgs_of (pkgs : list PackageRecord.t)
  : gmap string PackageRecord.t :=
  foldl (fun m pkg => <[PackageRecord.name pkg := pkg]> m) ∅ pkgs.

(** ** The process state: working directory and standard output

    [files] maps the names of the files of the working directory to their
    contents; [stdout] holds the argument of every [print] call, in order.
    An exception leaves the state as it is when it is raised: nothing is
    rolled back. *)

Record World : Type := mkWorld {
  files : gmap string string;
  stdout : list string
}.

Record IO (A : Type) : Type := mkIO { run : World -> result A * World }.
Arguments mkIO {A} run.
Arguments run {A} _ _.

#[global] Instance IO_ret : MRet IO := fun A a => mkIO (fun w => (Ok a, w)).
#[global] Instance IO_bind : MBind IO := fun A B f m =>
  mkIO (fun w =>
    match run m w with
    | (Ok a, w') => run (f a) w'
    | (Raise e, w') => (Raise e, w')
    end).

Definition raise {A} (e : Exn) : IO A := mkIO (fun w => (Raise e, w)).

Definition lift {A} (r : result A) : IO A := mkIO (fun w => (r, w)).

Definition print (s : string) : IO unit :=
  mkIO (fun w => (Ok tt, {| files := files w; stdout := stdout w ++ [s] |})).

(** [os.remove(path)] raises when there is no such file. *)
Definition os_remove (path : string) : IO unit :=
  mkIO (fun w =>
    match files w !! path with
    | Some _ => (Ok tt, {| files := delete path (files w); stdout := stdout w |})
    | None => (Raise (FileNotFoundError path), w)
    end).

Fixpoint for_each {A} (l : list A) (body : A -> IO unit) : IO unit :=
  match l with
  | [] => mret tt
  | x :: l' => body x ;; for_each l' body
  end.

(** ** InventoryDiffReporter *)

Definition esc : string := String "027" EmptyString.
Definition nl : string := String "010" EmptyString.

Definition present_absent_line (package : string) : string :=
  esc +:+ "[41m" +:+ Py.ljust 40 package +:+ " " +:+ Py.ljust 20 "Present" +:+
  " " +:+ Py.ljust 20 "Absent" +:+ esc +:+ "[0m".

Definition absent_present_line (package : string) : string :=
  esc +:+ "[44m" +:+ Py.ljust 40 package +:+ " " +:+ Py.ljust 20 "Absent" +:+
  " " +:+ Py.ljust 20 "Present" +:+ esc +:+ "[0m".

Definition display_line (line : string) : IO unit :=
  if Py.startswith line "<" then
    let package := Py.slice_from 2 line in
    print (present_absent_line package)
  else if Py.startswith line ">" then
    let package := Py.slice_from 2 line in
    print (absent_present_line package)
  else mret tt.

Definition display_table (diff_output env1 env2 : string) : IO unit :=
  print (nl +:+ "Package Differences:" +:+ nl) ;;
  print (Py.ljust 40 "Package" +:+ " " +:+ Py.ljust 20 env1 +:+ " " +:+
         Py.ljust 20 env2) ;;
  print (Py.ljust 40 "-------" +:+ " " +:+ Py.ljust 20 "----" +:+ " " +:+
         Py.ljust 20 "----") ;;
  for_each (Py.splitlines diff_output) display_line.

(** ** The two-environment driver

    The external collaborators of [compare_envs]: the [which] lookups, the
    shell command that lists both environments into the two temporary
    files, and the [diff] process together with the decoding of what it
    wrote.  Each is a function of what the code passes to it. *)
Record Host : Type := mkHost {
  (** [subprocess.call(["which", prog], ...)]: the exit status. *)
  host_call_which : string -> Z;
  (** [subprocess.check_output(["which", prog]).decode("utf-8")] *)
  host_check_output_which : string -> result string;
  (** [os.system(command)]: the files of the working directory afterwards. *)
  host_system : string -> gmap string string -> gmap string string;
  (** [subprocess.run(["diff", f1, f2], ...).stdout.decode('utf-8')], from
      the contents of the two files, where they exist. *)
  host_run_diff : option string -> option string -> result string
}.

Section Driver.
Variable host : Host.

Definition check_diff_installed : IO unit :=
  if negb (host_call_which host "diff" =? 0) then
    print "diff command could not be found. Please install it to proceed." ;;
    raise (SystemExit 1)
  else mret tt.

Definition find_conda_setup : IO string :=
  which_conda ← lift (host_check_output_which host "conda");
  let conda_path := Py.strip which_conda in
  let conda_setup :=
    posixpath.join (posixpath.dirname (posixpath.dirname conda_path))
                   ["etc"; "profile.d"; "conda.sh"] in
  mret conda_setup.

Definition os_system (command : string) : IO unit :=
  mkIO (fun w =>
    (Ok tt, {| files := host_system host command (files w);
               stdout := stdout w |})).

Definition run_diff (f1 f2 : string) : IO string :=
  mkIO (fun w => (host_run_diff host (files w !! f1) (files w !! f2), w)).

Definition compare_envs (env1 env2 : string) : IO unit :=
  check_diff_installed ;;
  conda_setup ← find_conda_setup;
  let command :=
    "source " +:+ conda_setup +:+ " && conda activate " +:+ env1 +:+
    " && conda list > env1_packages.txt && conda activate " +:+ env2 +:+
    " && conda list > env2_packages.txt && conda deactivate" in
  os_system command ;;
  diff_output ← run_diff "env1_packages.txt" "env2_packages.txt";
  display_table diff_output env1 env2 ;;
  os_remove "env1_packages.txt" ;;
  os_remove "env2_packages.txt".

End Driver.

(** ** Specification-level definitions

    The data model of the specification, to compare the code against:
    the verdict of one specification entry, the lines a ComparisonResult
    holds, and the rows of a DiffReport. *)

Inductive ComparisonVerdict : Type :=
  | Matched
  | Mismatched (explanation : string)
  | Missing (explanation : string).

Definition explanation_of (v : ComparisonVerdict) : option string :=
  match v with
  | Matched => None
  | Mismatched l | Missing l => Some l
  end.

Section Verdicts.
Context `{MatchSpecAPI}.

Definition well_formed (e : string) : Prop := is_Ok (MatchSpec_new e).

(** The verdict of entry [e] against inventory [I]; a malformed entry
    has none. *)
Definition verdict (I : gmap string PackageRecord.t) (e : string)
  : option ComparisonVerdict :=
  match MatchSpec_new e with
  | Ok s =>
      Some match I !! MatchSpec_name s with
           | None => Missing (not_found_line (MatchSpec_name s))
           | Some r =>
               if MatchSpec_match s r then Matched
               else Mismatched (mismatch_line (MatchSpec_name s) e r)
           end
  | Raise _ => None
  end.

Definition report_line (I : gmap string PackageRecord.t) (e : string)
  : option string :=
  verdict I e ≫= explanation_of.

(** The explanation lines of the failing entries, in the order of [S]. *)
Definition report_lines (I : gmap string PackageRecord.t) (S : list string)
  : list string :=
  omap (report_line I) S.

Definition failing (I : gmap string PackageRecord.t) (e : string) : Prop :=
  is_Some (report_line I e).

End Verdicts.

Definition nonempty {A} (l : list A) : bool :=
  match l with [] => false | _ :: _ => true end.

(** [contains hay needle]: [needle] occurs in [hay] as a contiguous piece. *)
Definition contains (hay needle : string) : Prop :=
  exists pre post, hay = pre +:+ needle +:+ post.

Fixpoint prefixb (p s : string) : bool :=
  match p, s with
  | EmptyString, _ => true
  | String a p', String b s' => bool_decide (a = b) && prefixb p' s'
  | String _ _, EmptyString => false
  end.

Fixpoint containsb (hay needle : string) : bool :=
  prefixb needle hay ||
  match hay with
  | String _ hay' => containsb hay' needle
  | EmptyString => false
  end.

Record DiffRow : Type := mkRow {
  package : string;
  present_in_a : bool;
  present_in_b : bool
}.

(** A DiffLine is classified by its leading marker; the two-character
    marker prefix is stripped. *)
Definition classify (line : string) : option DiffRow :=
  match line with
  | String "<" _ => Some (mkRow (Py.slice_from 2 line) true false)
  | String ">" _ => Some (mkRow (Py.slice_from 2 line) false true)
  | _ => None
  end.

Definition presence (b : bool) : string :=
  if b then "Present" else "Absent".

(** The fixed three-column layout (40/20/20) with its colour framing. *)
Definition render_row (r : DiffRow) : string :=
  esc +:+ (if present_in_a r then "[41m" else "[44m") +:+
  Py.ljust 40 (package r) +:+ " " +:+
  Py.ljust 20 (presence (present_in_a r)) +:+ " " +:+
  Py.ljust 20 (presence (present_in_b r)) +:+ esc +:+ "[0m".

Definition table_header (env1 env2 : string) : list string :=
  [ nl +:+ "Package Differences:" +:+ nl;
    Py.ljust 40 "Package" +:+ " " +:+ Py.ljust 20 env1 +:+ " " +:+
    Py.ljust 20 env2;
    Py.ljust 40 "-------" +:+ " " +:+ Py.ljust 20 "----" +:+ " " +:+
    Py.ljust 20 "----" ].

(** A single line of text: no character of it is a line boundary. *)
Fixpoint no_linebreak (s : string) : bool :=
  match s with
  | EmptyString => true
  | String c s' => negb (Py.is_linebreak c) && no_linebreak s'
  end.

(** ** A match specification by exact version and build *)

Module SimpleSpec.

Record t : Type := mk {
  name : string;
  version : option string;
  build : option string
}.

Fixpoint split_eq (cur s : string) : list string :=
  match s with
  | EmptyString => [cur]
  | String c s' =>
      if bool_decide (c = "="%char) then cur :: split_eq EmptyString s'
      else split_eq (cur +:+ String c EmptyString) s'
  end.

Definition lower_char (c : ascii) : ascii :=
  let n := N_of_ascii c in
  if ((65 <=? n) && (n <=? 90))%N then ascii_of_N (n + 32) else c.

Fixpoint lower (s : string) : string :=
  match s with
  | EmptyString => EmptyString
  | String c s' => String (lower_char c) (lower s')
  end.

Definition parse (text : string) : result t :=
  match split_eq EmptyString text with
  | n :: constraints =>
      if bool_decide (n = EmptyString) then Raise (InvalidMatchSpec text)
      else match constraints with
           | [] => Ok (mk (lower n) None None)
           | [v] => Ok (mk (lower n) (Some v) None)
           | [v; b] => Ok (mk (lower n) (Some v) (Some b))
           | _ => Raise (InvalidMatchSpec text)
           end
  | [] => Raise (InvalidMatchSpec text)
  end.

Definition satisfies (constraint : option string) (actual : string) : bool :=
  match constraint with
  | None => true
  | Some c => bool_decide (c = "*") || bool_decide (c = actual)
  end.

Definition matches (s : t) (r : PackageRecord.t) : bool :=
  satisfies (version s) (PackageRecord.version r) &&
  satisfies (build s) (PackageRecord.build r).

End SimpleSpec.

(** Modelled from the spec: [conda.models.match_spec.MatchSpec] is not
    part of this module.  An entry has the form [name], [name=version] or
    [name=version=build]; it parses into a canonical (lower-case) name and
    its version/build predicates; a record satisfies the predicate iff its
    version and build string equal the constraint, or the constraint is
    absent or the wildcard; text without a name, or with more than two
    constraints, is malformed. *)
Definition simple_match_spec : MatchSpecAPI := {|
  MatchSpec := SimpleSpec.t;
  MatchSpec_new := SimpleSpec.parse;
  MatchSpec_name := SimpleSpec.name;
  MatchSpec_match := SimpleSpec.matches
|}.

(** ** Example scenarios

    The inventory of the specification's example scenarios, and two hosts
    for the two-environment driver: on the first every external step
    succeeds; on the second the [diff] process cannot be run. *)

Module Scenario.

Definition numpy : PackageRecord.t := PackageRecord.mk "numpy" "1.2" "0".
Definition requests : PackageRecord.t :=
  PackageRecord.mk "requests" "2.0" "0".

Definition inventory : gmap string PackageRecord.t :=
  active_pkgs_of [numpy; requests].

Definition list_envs (fs : gmap string string) : gmap string string :=
  <["env2_packages.txt" := "bar-2.0" +:+ nl]>
    (<["env1_packages.txt" := "foo-1.0" +:+ nl]> fs).

Definition diff_text : string :=
  "1c1" +:+ nl +:+ "< foo-1.0" +:+ nl +:+ "---" +:+ nl +:+
  "> bar-2.0" +:+ nl.

Definition good_host : Host := {|
  host_call_which := fun _ => 0;
  host_check_output_which := fun _ => Ok ("/opt/conda/bin/conda" +:+ nl);
  host_system := fun _ fs => list_envs fs;
  host_run_diff := fun _ _ => Ok diff_text
|}.

Definition failing_diff_host : Host := {|
  host_call_which := fun _ => 0;
  host_check_output_which := fun _ => Ok ("/opt/conda/bin/conda" +:+ nl);
  host_system := fun _ fs => list_envs fs;
  host_run_diff := fun _ _ => Raise OSError
|}.

Definition empty_world : World := {| files := ∅; stdout := [] |}.

End Scenario.

(** ** The inventory provider and the specification list

    [get_packages] and the two blocks of [execute] that prepare the
    arguments of [compare_packages]. *)

Inductive CondaError : Type :=
  | EnvironmentLocationNotFound (location : string).

(** The collaborators of [get_packages]: [os.path.isdir] and
    [PrefixData(prefix, pip_interop_enabled=True).iter_records()]. *)
Record Prefixes : Type := mkPrefixes {
  os_path_isdir : string -> bool;
  iter_records : string -> list PackageRecord.t
}.

(** [sorted(records, key=lambda x: x.name)]: Python's sort is stable and
    compares strings by code point, so its result is the one stable
    ordering by name; insertion from the right computes it.  A record is
    put before the first record whose name is not smaller than its own. *)
Fixpoint insert_by_name (x : PackageRecord.t) (l : list PackageRecord.t)
  : list PackageRecord.t :=
  match l with
  | [] => [x]
  | y :: l' =>
      if String.leb (PackageRecord.name x) (PackageRecord.name y)
      then x :: y :: l'
      else y :: insert_by_name x l'
  end.

Definition sorted_by_name (records : list PackageRecord.t)
  : list PackageRecord.t :=
  foldr insert_by_name [] records.

Definition get_packages (host : Prefixes) (prefix : string)
  : CondaError + list PackageRecord.t :=
  if negb (os_path_isdir host prefix)
  then inl (EnvironmentLocationNotFound prefix)
  else inr (sorted_by_name (iter_records host prefix)).

(** The specification list of [execute]: the "conda" dependencies, then
    the "pip" dependencies, each only when its key is present. *)
Definition specification_pkgs_of (dependencies : gmap string (list string))
  : list string :=
  let specification_pkgs := [] in
  let specification_pkgs :=
    match dependencies !! "conda" with
    | Some conda => specification_pkgs ++ conda
    | None => specification_pkgs
    end in
  let specification_pkgs :=
    match dependencies !! "pip" with
    | Some pip => specification_pkgs ++ pip
    | None => specification_pkgs
    end in
  specification_pkgs.

(** [str_forallb p s]: every character of [s] satisfies [p]. *)
Fixpoint str_forallb (p : ascii -> bool) (s : string) : bool :=
  match s with
  | EmptyString => true
  | String c s' => p c && str_forallb p s'
  end.

Definition not_sep (c : ascii) : bool := negb (posixpath.is_sep c).

(** [s.split(sep, 1)[0]]: the text before the first occurrence of [sep],
    all of [s] when there is none. *)
Fixpoint before_sep (sep s : string) : string :=
  if prefixb sep s then EmptyString
  else match s with
       | EmptyString => EmptyString
       | String c s' => String c (before_sep sep s')
       end.

(** The file name [execute] hands to the specification provider.
    [CONDA_SESSION_SCHEMES] is defined elsewhere and
    [abspath(expanduser(expandvars(...)))] depends on the process
    environment; both are parameters. *)
Definition execute_filename (CONDA_SESSION_SCHEMES : gset string)
    (abspath_expanded : string -> string) (file : string) : string :=
  let url_scheme := before_sep "://" file in
  if bool_decide (url_scheme ∈ CONDA_SESSION_SCHEMES) then file
  else abspath_expanded file.

Definition not_colon (c : ascii) : bool := negb (bool_decide (c = ":"%char)).

(** A record is ordered before another when its name is not greater. *)
Definition name_le (a b : PackageRecord.t) : Prop :=
  String.le (PackageRecord.name a) (PackageRecord.name b).

(** [matched I e]: entry [e] parses, names a package of [I] and that
    package's record satisfies it. *)
Definition matched `{MatchSpecAPI} (I : gmap string PackageRecord.t)
    (e : string) : Prop :=
  exists s r,
    MatchSpec_new e = Ok s /\ I !! MatchSpec_name s = Some r /\
    MatchSpec_match s r = true.

(** The shell command [compare_envs] passes to [os.system]. *)
Definition list_command (conda_setup env1 env2 : string) : string :=
  "source " +:+ conda_setup +:+ " && conda activate " +:+ env1 +:+
  " && conda list > env1_packages.txt && conda activate " +:+ env2 +:+
  " && conda list > env2_packages.txt && conda deactivate".

(** The path [find_conda_setup] computes from the output of [which conda]. *)
Definition conda_setup_of (which_conda : string) : string :=
  posixpath.join
    (posixpath.dirname (posixpath.dirname (Py.strip which_conda)))
    ["etc"; "profile.d"; "conda.sh"].

(** More hosts: one without [diff], one without [conda], and one whose
    shell command writes only the first of the two files. *)
Module Hosts.

Definition no_diff_host : Host := {|
  host_call_which := fun _ => 1;
  host_check_output_which := fun _ => Ok ("/opt/conda/bin/conda" +:+ nl);
  host_system := fun _ fs => Scenario.list_envs fs;
  host_run_diff := fun _ _ => Ok Scenario.diff_text
|}.

Definition no_conda_host : Host := {|
  host_call_which := fun _ => 0;
  host_check_output_which := fun prog => Raise (CalledProcessError ["which"; prog]);
  host_system := fun _ fs => Scenario.list_envs fs;
  host_run_diff := fun _ _ => Ok Scenario.diff_text
|}.

Definition first_file_only_host : Host := {|
  host_call_which := fun _ => 0;
  host_check_output_which := fun _ => Ok ("/opt/conda/bin/conda" +:+ nl);
  host_system := fun _ fs => <["env1_packages.txt" := "foo-1.0" +:+ nl]> fs;
  host_run_diff := fun _ _ => Ok ""
|}.

Definition second_file_only_host : Host := {|
  host_call_which := fun _ => 0;
  host_check_output_which := fun _ => Ok ("/opt/conda/bin/conda" +:+ nl);
  host_system := fun _ fs => <["env2_packages.txt" := "bar-2.0" +:+ nl]> fs;
  host_run_diff := fun _ _ => Ok ""
|}.

Definition notes_world : World :=
  {| files := {["notes.txt" := "keep"]}; stdout := [] |}.

Definition flask : PackageRecord.t := PackageRecord.mk "flask" "3.0" "0".
Definition numpy_old : PackageRecord.t := PackageRecord.mk "numpy" "1.1" "0".

Definition prefixes : Prefixes := {|
  os_path_isdir := fun p => bool_decide (p = "/opt/conda/envs/test");
  iter_records := fun _ => [Scenario.requests; numpy_old; flask; Scenario.numpy]
|}.

End Hosts.

(** * Properties *)

Lemma result_bind_Ok {A B} (f : A -> result B) (a : A) : Ok a ≫= f = f a.
Proof. reflexivity. Qed.

Lemma result_bind_Raise {A B} (f : A -> result B) (e : Exn) :
  Raise e ≫= f = Raise e.
Proof. reflexivity. Qed.

Lemma is_Ok_inv {A} (r : result A) : is_Ok r -> exists a, r = Ok a.
Proof. destruct r; [eauto | contradiction]. Qed.

Lemma nonempty_app {A} (l k : list A) :
  nonempty (l ++ k) = nonempty l || nonempty k.
Proof. destruct l, k; reflexivity. Qed.

(** ** The loop of [compare_packages] *)

Section SpecMatcherFacts.
Context `{MatchSpecAPI}.
Implicit Types (I : gmap string PackageRecord.t) (S : list string).

Lemma compare_step_spec I acc e :
  compare_step I acc e =
    match MatchSpec_new e with
    | Ok _ =>
        Ok match report_line I e with
           | Some l => {| output := output acc ++ [l]; miss := true |}
           | None => acc
           end
    | Raise ex => Raise ex
    end.
Proof.
  unfold compare_step, report_line, verdict.
  destruct (MatchSpec_new e) as [s|ex]; [|reflexivity].
  rewrite result_bind_Ok. cbn.
  destruct (I !! MatchSpec_name s) as [r|]; [|reflexivity].
  destruct (MatchSpec_match s r); reflexivity.
Qed.

Lemma report_lines_cons I e S :
  report_lines I (e :: S) =
    match report_line I e with
    | Some l => l :: report_lines I S
    | None => report_lines I S
    end.
Proof. reflexivity. Qed.

Lemma report_lines_app I S1 S2 :
  report_lines I (S1 ++ S2) = report_lines I S1 ++ report_lines I S2.
Proof. apply omap_app. Qed.

(** On well-formed entries the loop runs to the end; it appends the
    explanation lines in order and raises [miss] iff there is one. *)
Lemma compare_loop_wf I S acc :
  Forall well_formed S ->
  compare_loop I acc S =
    Ok {| output := output acc ++ report_lines I S;
          miss := miss acc || nonempty (report_lines I S) |}.
Proof.
  intros Hwf. revert acc.
  induction Hwf as [|e S He _ IH]; intros [out m]; cbn [compare_loop].
  - cbn. by rewrite app_nil_r, orb_false_r.
  - rewrite compare_step_spec.
    apply is_Ok_inv in He as [s ->]. rewrite result_bind_Ok, IH.
    rewrite report_lines_cons.
    destruct (report_line I e) as [l|]; cbn; [|reflexivity].
    by rewrite <- app_assoc, orb_true_r.
Qed.

(** The loop stops at the first entry that does not parse, with the
    exception its construction raised, whatever follows it. *)
Lemma compare_loop_raise I pre e post acc ex :
  Forall well_formed pre ->
  MatchSpec_new e = Raise ex ->
  compare_loop I acc (pre ++ e :: post) = Raise ex.
Proof.
  intros Hwf He. revert acc.
  induction Hwf as [|e0 pre He0 _ IH]; intros acc; cbn [compare_loop app].
  - by rewrite compare_step_spec, He.
  - rewrite compare_step_spec.
    apply is_Ok_inv in He0 as [s ->]. by rewrite result_bind_Ok, IH.
Qed.

(** A list of entries is well-formed throughout, or splits at its first
    malformed entry. *)
Lemma first_malformed S :
  Forall well_formed S \/
  exists pre e post ex,
    S = pre ++ e :: post /\ Forall well_formed pre /\
    MatchSpec_new e = Raise ex.
Proof.
  induction S as [|e S [IH|(pre & e' & post & ex & -> & Hpre & He')]].
  - left. constructor.
  - destruct (MatchSpec_new e) as [s|ex] eqn:He.
    + left. constructor; [|done]. unfold well_formed. by rewrite He.
    + right. exists [], e, S, ex. by repeat split.
  - destruct (MatchSpec_new e) as [s|ex0] eqn:He.
    + right. exists (e :: pre), e', post, ex. repeat split; [|done].
      constructor; [|done]. unfold well_formed. by rewrite He.
    + right. exists [], e, (pre ++ e' :: post), ex0. by repeat split.
Qed.

Lemma compare_packages_wf I S :
  Forall well_formed S ->
  compare_packages I S =
    Ok match report_lines I S with
       | [] => (0, [success_msg])
       | ls => (1, ls)
       end.
Proof.
  intros Hwf. unfold compare_packages.
  rewrite (compare_loop_wf _ _ _ Hwf), result_bind_Ok. cbn.
  by destruct (report_lines I S).
Qed.

Lemma compare_packages_raise I pre e post ex :
  Forall well_formed pre ->
  MatchSpec_new e = Raise ex ->
  compare_packages I (pre ++ e :: post) = Raise ex.
Proof.
  intros Hwf He. unfold compare_packages.
  by rewrite (compare_loop_raise _ _ _ _ _ _ Hwf He).
Qed.

Lemma compare_packages_Ok_wf I S r :
  compare_packages I S = Ok r -> Forall well_formed S.
Proof.
  intros Hr.
  destruct (first_malformed S)
    as [Hwf|(pre & e & post & ex & -> & Hpre & He)]; [done|].
  by rewrite (compare_packages_raise _ _ _ _ _ Hpre He) in Hr.
Qed.

End SpecMatcherFacts.

(** ** Strings *)

Lemma str_app_nil_l (s : string) : "" +:+ s = s.
Proof. reflexivity. Qed.

Lemma str_app_cons (a : ascii) (s t : string) :
  String a s +:+ t = String a (s +:+ t).
Proof. reflexivity. Qed.

Lemma str_app_nil_r (s : string) : s +:+ "" = s.
Proof. induction s as [|a s IH]; [done|]. by rewrite str_app_cons, IH. Qed.

Lemma str_app_assoc (s t u : string) : (s +:+ t) +:+ u = s +:+ (t +:+ u).
Proof.
  induction s as [|a s IH]; [done|]. by rewrite !str_app_cons, IH.
Qed.

Lemma prefixb_app (p s : string) : prefixb p (p +:+ s) = true.
Proof.
  induction p as [|a p IH]; [done|].
  rewrite str_app_cons. cbn. by rewrite bool_decide_true, IH.
Qed.

Lemma containsb_unfold (hay needle : string) :
  containsb hay needle =
    prefixb needle hay ||
    match hay with
    | String _ hay' => containsb hay' needle
    | EmptyString => false
    end.
Proof. by destruct hay. Qed.

Lemma containsb_complete (hay needle : string) :
  contains hay needle -> containsb hay needle = true.
Proof.
  intros (pre & post & ->).
  induction pre as [|a pre IH].
  - by rewrite str_app_nil_l, containsb_unfold, prefixb_app.
  - rewrite str_app_cons, containsb_unfold, IH. apply orb_true_r.
Qed.

Lemma contains_app_l (pre s needle : string) :
  contains s needle -> contains (pre +:+ s) needle.
Proof.
  intros (a & b & ->). exists (pre +:+ a), b. by rewrite str_app_assoc.
Qed.

Lemma contains_app_r (s post needle : string) :
  contains s needle -> contains (s +:+ post) needle.
Proof.
  intros (a & b & ->). exists a, (b +:+ post). by rewrite !str_app_assoc.
Qed.

Lemma contains_refl (s : string) : contains s s.
Proof. exists "", "". by rewrite str_app_nil_r. Qed.

(** Every explanation line carries the word "found"; the success line
    does not, so no explanation line can be mistaken for it. *)
Lemma not_found_line_found (name : string) :
  contains (not_found_line name) " found".
Proof. exists (name +:+ " not"), "". by rewrite str_app_assoc. Qed.

Lemma mismatch_line_found (name pkg : string) (r : PackageRecord.t) :
  contains (mismatch_line name pkg r) " found".
Proof.
  exists name,
    (" but mismatch. Specification pkg: " +:+ pkg +:+ ", Running pkg: " +:+
     running_pkg r).
  reflexivity.
Qed.

Lemma success_msg_not_found : containsb success_msg " found" = false.
Proof. vm_compute. reflexivity. Qed.

Lemma mismatch_line_spec_text (name pkg : string) (r : PackageRecord.t) :
  contains (mismatch_line name pkg r) pkg.
Proof.
  unfold mismatch_line.
  apply contains_app_l, contains_app_l, contains_app_r, contains_refl.
Qed.

Lemma mismatch_line_running_pkg (name pkg : string) (r : PackageRecord.t) :
  contains (mismatch_line name pkg r) (running_pkg r).
Proof.
  unfold mismatch_line. do 4 apply contains_app_l. apply contains_refl.
Qed.

(** ** Verdicts *)

Section VerdictFacts.
Context `{MatchSpecAPI}.
Implicit Types (I : gmap string PackageRecord.t) (S : list string).

Lemma report_line_missing I e s :
  MatchSpec_new e = Ok s -> I !! MatchSpec_name s = None ->
  report_line I e = Some (not_found_line (MatchSpec_name s)).
Proof. intros He Hs. unfold report_line, verdict. by rewrite He, Hs. Qed.

Lemma report_line_mismatch I e s r :
  MatchSpec_new e = Ok s -> I !! MatchSpec_name s = Some r ->
  MatchSpec_match s r = false ->
  report_line I e = Some (mismatch_line (MatchSpec_name s) e r).
Proof.
  intros He Hs Hm. unfold report_line, verdict. by rewrite He, Hs, Hm.
Qed.

Lemma report_line_matched I e s r :
  MatchSpec_new e = Ok s -> I !! MatchSpec_name s = Some r ->
  MatchSpec_match s r = true ->
  report_line I e = None.
Proof.
  intros He Hs Hm. unfold report_line, verdict. by rewrite He, Hs, Hm.
Qed.

Lemma report_line_found I e l :
  report_line I e = Some l -> contains l " found".
Proof.
  unfold report_line, verdict.
  destruct (MatchSpec_new e) as [s|]; [|done]. cbn.
  destruct (I !! MatchSpec_name s) as [r|]; cbn.
  - destruct (MatchSpec_match s r); cbn; [done|].
    intros [= <-]. apply mismatch_line_found.
  - intros [= <-]. apply not_found_line_found.
Qed.

Lemma report_line_not_success I e : report_line I e ≠ Some success_msg.
Proof.
  intros Hl%report_line_found%containsb_complete.
  by rewrite success_msg_not_found in Hl.
Qed.

Lemma report_lines_elem I S e l :
  e ∈ S -> report_line I e = Some l -> l ∈ report_lines I S.
Proof. intros He Hl. apply list_elem_of_omap. eauto. Qed.

Lemma report_lines_not_success I S : success_msg ∉ report_lines I S.
Proof.
  intros (e & _ & He)%list_elem_of_omap. by apply report_line_not_success in He.
Qed.

Lemma report_lines_nil I S :
  Forall (fun e => report_line I e = None) S -> report_lines I S = [].
Proof.
  induction 1 as [|e S He _ IH]; [done|].
  by rewrite report_lines_cons, He.
Qed.

Lemma report_lines_length I S :
  length (report_lines I S) = length (filter (failing I) S).
Proof.
  induction S as [|e S IH]; [done|].
  rewrite report_lines_cons, filter_cons.
  destruct (decide (failing I e)) as [[l Hl]|Hn].
  - rewrite Hl. cbn. by rewrite IH.
  - destruct (report_line I e) as [l|] eqn:He; [|done].
    exfalso. apply Hn. unfold failing. rewrite He. eauto.
Qed.

End VerdictFacts.

(** ** The inventory as a mapping *)

Lemma active_pkgs_of_snoc (pkgs : list PackageRecord.t) (pkg : PackageRecord.t) :
  active_pkgs_of (pkgs ++ [pkg]) =
    <[PackageRecord.name pkg := pkg]> (active_pkgs_of pkgs).
Proof. unfold active_pkgs_of. by rewrite foldl_app. Qed.

Lemma active_pkgs_of_list_to_map (pkgs : list PackageRecord.t) :
  active_pkgs_of pkgs =
    list_to_map (reverse ((fun pkg => (PackageRecord.name pkg, pkg)) <$> pkgs)).
Proof.
  induction pkgs as [|pkg pkgs IH] using rev_ind; [done|].
  rewrite active_pkgs_of_snoc, IH, fmap_app, reverse_app. reflexivity.
Qed.

(** With one record per name, the mapping does not depend on the order in
    which the provider lists the records. *)
Lemma active_pkgs_of_perm (pkgs pkgs' : list PackageRecord.t) :
  NoDup (PackageRecord.name <$> pkgs) -> pkgs ≡ₚ pkgs' ->
  active_pkgs_of pkgs = active_pkgs_of pkgs'.
Proof.
  intros Hnd Hperm. rewrite !active_pkgs_of_list_to_map.
  apply list_to_map_proper.
  - rewrite fmap_reverse, reverse_Permutation, <- list_fmap_compose.
    exact Hnd.
  - by rewrite !reverse_Permutation, Hperm.
Qed.

(** ** SpecMatcher: the claims *)

Section SpecMatcherClaims.
Context `{MatchSpecAPI}.
Implicit Types (I : gmap string PackageRecord.t) (S : list string).

(** C1. If every entry of [S] names a package present in [I] whose
    record satisfies the entry's predicate, [compare_packages] returns
    outcome code 0 and exactly one line, the success message. *)
Theorem compare_packages_all_matched I S :
  Forall (fun e => exists s r,
            MatchSpec_new e = Ok s /\ I !! MatchSpec_name s = Some r /\
            MatchSpec_match s r = true) S ->
  compare_packages I S = Ok (0, [success_msg]).
Proof.
  intros Hall.
  rewrite compare_packages_wf, report_lines_nil; [done| |].
  - eapply Forall_impl; [exact Hall|].
    intros e (s & r & He & Hr & Hm). eauto using report_line_matched.
  - eapply Forall_impl; [exact Hall|].
    intros e (s & r & He & _). unfold well_formed. by rewrite He.
Qed.

(** C2 (amended). When every entry of [S] is well-formed and some entry
    [e] parses to a name that is not a key of [I], [compare_packages]
    returns outcome code 1 and its output contains the line
    "<name(e)> not found". *)
Theorem compare_packages_missing I S e s :
  Forall well_formed S ->
  e ∈ S -> MatchSpec_new e = Ok s -> I !! MatchSpec_name s = None ->
  exists out,
    compare_packages I S = Ok (1, out) /\
    MatchSpec_name s +:+ " not found" ∈ out.
Proof.
  intros Hwf He Hs Hnone.
  pose proof (report_lines_elem I S e _ He
                (report_line_missing I e s Hs Hnone)) as Hin.
  exists (report_lines I S). split; [|exact Hin].
  rewrite compare_packages_wf by done.
  destruct (report_lines I S); [by apply elem_of_nil in Hin|done].
Qed.

(** C3 (amended). When every entry of [S] is well-formed and some entry
    [e] names a package present in [I] whose record [r] does not satisfy
    [e]'s predicate, [compare_packages] returns outcome code 1 and its
    output contains a line that includes both the text of [e] and the
    installed record rendered as name==version=build. *)
Theorem compare_packages_mismatch I S e s r :
  Forall well_formed S ->
  e ∈ S -> MatchSpec_new e = Ok s -> I !! MatchSpec_name s = Some r ->
  MatchSpec_match s r = false ->
  exists out line,
    compare_packages I S = Ok (1, out) /\ line ∈ out /\
    contains line e /\
    contains line (PackageRecord.name r +:+ "==" +:+
                   PackageRecord.version r +:+ "=" +:+
                   PackageRecord.build r).
Proof.
  intros Hwf He Hs Hr Hm.
  pose proof (report_lines_elem I S e _ He
                (report_line_mismatch I e s r Hs Hr Hm)) as Hin.
  exists (report_lines I S), (mismatch_line (MatchSpec_name s) e r).
  split; [|split; [exact Hin|split]].
  - rewrite compare_packages_wf by done.
    destruct (report_lines I S); [by apply elem_of_nil in Hin|done].
  - apply mismatch_line_spec_text.
  - apply mismatch_line_running_pkg.
Qed.

(** C4. On well-formed entries a Missing or Mismatched verdict never
    aborts the run: when some entry fails, the outcome code is 1 and the
    output is exactly the explanation lines of all failing entries of
    [S], one per failing entry, with no success line. *)
Theorem compare_packages_soft_failures I S :
  Forall well_formed S -> Exists (failing I) S ->
  compare_packages I S = Ok (1, report_lines I S) /\
  length (report_lines I S) = length (filter (failing I) S) /\
  (forall e l, e ∈ S -> report_line I e = Some l -> l ∈ report_lines I S) /\
  success_msg ∉ report_lines I S.
Proof.
  intros Hwf Hex. repeat split.
  - rewrite compare_packages_wf by done.
    apply Exists_exists in Hex as (e & He & [l Hl]).
    pose proof (report_lines_elem I S e l He Hl) as Hin.
    destruct (report_lines I S); [by apply elem_of_nil in Hin|done].
  - apply report_lines_length.
  - intros e l. apply report_lines_elem.
  - apply report_lines_not_success.
Qed.

(** C5. The Missing/Mismatched lines of the output follow the order of
    their entries in [S]: the output is the explanation lines of [S] in
    order (then the success line if there is none); in particular the
    line of an earlier failing entry stands before the line of a later
    one, with the lines of the entries between them in between; and the
    result does not depend on the order in which the inventory lists
    its records. *)
Theorem compare_packages_order :
  (forall I S code out,
     compare_packages I S = Ok (code, out) ->
     out = report_lines I S ++
           (if nonempty (report_lines I S) then [] else [success_msg])) /\
  (forall I S1 e1 S2 e2 S3 l1 l2 code out,
     compare_packages I (S1 ++ e1 :: S2 ++ e2 :: S3) = Ok (code, out) ->
     report_line I e1 = Some l1 -> report_line I e2 = Some l2 ->
     out = report_lines I S1 ++ l1 :: report_lines I S2 ++
           l2 :: report_lines I S3) /\
  (forall pkgs pkgs' S,
     NoDup (PackageRecord.name <$> pkgs) -> pkgs ≡ₚ pkgs' ->
     compare_packages (active_pkgs_of pkgs') S =
     compare_packages (active_pkgs_of pkgs) S).
Proof.
  split; [|split].
  - intros I S code out Hr.
    pose proof (compare_packages_Ok_wf _ _ _ Hr) as Hwf.
    rewrite compare_packages_wf in Hr by done.
    destruct (report_lines I S); injection Hr as <- <-; cbn;
      by rewrite ?app_nil_r.
  - intros I S1 e1 S2 e2 S3 l1 l2 code out Hr H1 H2.
    pose proof (compare_packages_Ok_wf _ _ _ Hr) as Hwf.
    rewrite compare_packages_wf in Hr by done.
    rewrite report_lines_app, report_lines_cons, H1,
      report_lines_app, report_lines_cons, H2 in Hr.
    destruct (report_lines I S1); by injection Hr as <- <-.
  - intros pkgs pkgs' S Hnd Hperm.
    by rewrite (active_pkgs_of_perm pkgs pkgs' Hnd Hperm).
Qed.

(** C6 (amended). A list with a malformed entry makes [compare_packages]
    fail fast with the parse error raised at its first malformed entry
    [e]: the list splits as [pre ++ e :: post] with [pre] well-formed,
    and the call raises what constructing [e] raises, whatever entries
    stand after [e]; no ComparisonResult is returned. *)
Theorem compare_packages_fail_fast I S :
  ¬ Forall well_formed S ->
  exists pre e post ex,
    S = pre ++ e :: post /\ Forall well_formed pre /\
    MatchSpec_new e = Raise ex /\
    (forall post', compare_packages I (pre ++ e :: post') = Raise ex) /\
    (forall r, compare_packages I S ≠ Ok r).
Proof.
  intros Hnwf.
  destruct (first_malformed S)
    as [Hwf|(pre & e & post & ex & -> & Hpre & He)]; [done|].
  exists pre, e, post, ex. repeat split; [done..| |].
  - intros post'. by apply compare_packages_raise.
  - intros r. by rewrite (compare_packages_raise _ _ _ _ _ Hpre He).
Qed.

(** C9. On the empty specification list [compare_packages] returns
    outcome code 0 and exactly the success line; and whatever the input,
    the output it returns is never empty. *)
Theorem compare_packages_output_nonempty :
  (forall I, compare_packages I [] = Ok (0, [success_msg])) /\
  (forall I S code out, compare_packages I S = Ok (code, out) -> out ≠ []).
Proof.
  split; [done|].
  intros I S code out Hr.
  pose proof (compare_packages_Ok_wf _ _ _ Hr) as Hwf.
  rewrite compare_packages_wf in Hr by done.
  destruct (report_lines I S); by injection Hr as <- <-.
Qed.

End SpecMatcherClaims.

(** ** Running [IO] computations *)

Lemma run_bind {A B} (m : IO A) (f : A -> IO B) (w : World) :
  run (m ≫= f) w =
    match run m w with
    | (Ok a, w') => run (f a) w'
    | (Raise e, w') => (Raise e, w')
    end.
Proof. reflexivity. Qed.

Lemma run_print (s : string) (w : World) :
  run (print s) w = (Ok tt, {| files := files w; stdout := stdout w ++ [s] |}).
Proof. reflexivity. Qed.

Lemma run_ret {A} (a : A) (w : World) : run (mret a) w = (Ok a, w).
Proof. reflexivity. Qed.

Lemma world_eta (w : World) : {| files := files w; stdout := stdout w |} = w.
Proof. by destruct w. Qed.

(** ** InventoryDiffReporter: lines and rows *)

Lemma classify_present_absent (rest : string) :
  classify (String "<" rest) =
    Some (mkRow (Py.slice_from 2 (String "<" rest)) true false).
Proof. reflexivity. Qed.

Lemma classify_absent_present (rest : string) :
  classify (String ">" rest) =
    Some (mkRow (Py.slice_from 2 (String ">" rest)) false true).
Proof. reflexivity. Qed.

Lemma classify_other (line : string) :
  Py.startswith line "<" = false -> Py.startswith line ">" = false ->
  classify line = None.
Proof.
  destruct line as [|c rest]; [done|]. cbn [Py.startswith].
  intros Hlt%bool_decide_eq_false Hgt%bool_decide_eq_false.
  destruct c as [[] [] [] [] [] [] [] []]; done.
Qed.

Lemma display_line_spec (line : string) (w : World) :
  run (display_line line) w =
    (Ok tt, {| files := files w;
               stdout := stdout w ++ (render_row <$> option_list (classify line)) |}).
Proof.
  unfold display_line.
  destruct (Py.startswith line "<") eqn:Hlt.
  - destruct line as [|c rest]; [done|].
    apply bool_decide_eq_true in Hlt as ->. reflexivity.
  - destruct (Py.startswith line ">") eqn:Hgt.
    + destruct line as [|c rest]; [done|].
      apply bool_decide_eq_true in Hgt as ->. reflexivity.
    + rewrite (classify_other line Hlt Hgt), run_ret. cbn.
      by rewrite app_nil_r, world_eta.
Qed.

Lemma for_each_display_line (lines : list string) (w : World) :
  run (for_each lines display_line) w =
    (Ok tt, {| files := files w;
               stdout := stdout w ++ (render_row <$> omap classify lines) |}).
Proof.
  revert w. induction lines as [|line lines IH]; intros w; cbn [for_each].
  - rewrite run_ret. cbn. by rewrite app_nil_r, world_eta.
  - rewrite run_bind, display_line_spec, IH. cbn [files stdout].
    rewrite <- app_assoc. do 3 f_equal.
    change (omap classify (line :: lines))
      with (match classify line with
            | Some r => r :: omap classify lines
            | None => omap classify lines
            end).
    destruct (classify line); reflexivity.
Qed.

Lemma display_table_spec (diff_output env1 env2 : string) (w : World) :
  run (display_table diff_output env1 env2) w =
    (Ok tt, {| files := files w;
               stdout := stdout w ++ table_header env1 env2 ++
                         (render_row <$> omap classify (Py.splitlines diff_output)) |}).
Proof.
  unfold display_table.
  do 3 (rewrite run_bind, run_print; cbn beta iota).
  rewrite for_each_display_line. cbn [files stdout].
  unfold table_header. by rewrite <- !app_assoc.
Qed.

(** ** [splitlines] on a line-per-entry stream *)

Lemma splitlines_go_line (cur l rest : string) :
  no_linebreak l = true ->
  Py.splitlines_go false cur (l +:+ String "010" rest) =
    (cur +:+ l) :: Py.splitlines_go false "" rest.
Proof.
  revert cur. induction l as [|a l IH]; intros cur Hl.
  - rewrite str_app_nil_l, str_app_nil_r. reflexivity.
  - cbn in Hl. apply andb_true_iff in Hl as [Ha%negb_true_iff Hl].
    rewrite str_app_cons. cbn [Py.splitlines_go andb]. rewrite Ha, (IH _ Hl).
    rewrite str_app_assoc. reflexivity.
Qed.

Lemma splitlines_go_last (cur l : string) :
  no_linebreak l = true ->
  Py.splitlines_go false cur l =
    match cur +:+ l with EmptyString => [] | s => [s] end.
Proof.
  revert cur. induction l as [|a l IH]; intros cur Hl.
  - rewrite str_app_nil_r. by destruct cur.
  - cbn in Hl. apply andb_true_iff in Hl as [Ha%negb_true_iff Hl].
    cbn [Py.splitlines_go andb]. rewrite Ha, (IH _ Hl).
    rewrite str_app_assoc. reflexivity.
Qed.

Lemma splitlines_unlines (ls : list string) :
  Forall (fun l => no_linebreak l = true) ls ->
  Py.splitlines (Py.unlines ls) = ls.
Proof.
  unfold Py.splitlines. induction 1 as [|l ls Hl _ IH]; [done|].
  cbn [Py.unlines]. by rewrite (splitlines_go_line _ _ _ Hl), IH.
Qed.

Lemma splitlines_single (line : string) :
  no_linebreak line = true -> line ≠ "" ->
  Py.splitlines line = [line].
Proof.
  intros Hl Hne. unfold Py.splitlines.
  rewrite (splitlines_go_last _ _ Hl), str_app_nil_l. by destruct line.
Qed.

(** ** InventoryDiffReporter: the claims *)

(** C7. [display_table] processes the lines of the diff text in input
    order, without deduplication: after the three header lines it prints
    one rendered row per line that starts with '<' or '>', in line order.
    A '<' line gives one row with the two-character marker prefix
    stripped, marked present in A and absent in B; a '>' line one row
    marked absent in A and present in B; any other line gives no row; a
    repeated line gives a row each time; and a '<' and a '>' line for the
    same package give two separate rows. *)
Theorem display_table_rows :
  (forall diff_output env1 env2 w,
     run (display_table diff_output env1 env2) w =
       (Ok tt,
        {| files := files w;
           stdout := stdout w ++ table_header env1 env2 ++
             (render_row <$> omap classify (Py.splitlines diff_output)) |})) /\
  (forall lines,
     Forall (fun l => no_linebreak l = true) lines ->
     Py.splitlines (Py.unlines lines) = lines) /\
  (forall lines1 lines2,
     omap classify (lines1 ++ lines2) =
     omap classify lines1 ++ omap classify lines2) /\
  (forall rest,
     classify (String "<" rest) =
       Some (mkRow (Py.slice_from 2 (String "<" rest)) true false)) /\
  (forall rest,
     classify (String ">" rest) =
       Some (mkRow (Py.slice_from 2 (String ">" rest)) false true)) /\
  (forall line,
     Py.startswith line "<" = false -> Py.startswith line ">" = false ->
     classify line = None) /\
  (forall line r, classify line = Some r -> omap classify [line; line] = [r; r]) /\
  (forall p,
     omap classify ["< " +:+ p; "> " +:+ p] =
       [mkRow p true false; mkRow p false true]).
Proof.
  repeat split.
  - apply display_table_spec.
  - apply splitlines_unlines.
  - intros. apply omap_app.
  - apply classify_other.
  - intros line r Hr. cbn. by rewrite Hr.
Qed.

(** C10. The classification looks at the first character only and then
    drops the first two characters whatever they are: a line whose first
    character is '<' or '>' always yields a row, whose package field is the
    line without its first two characters -- the rest after the second
    character when there is one, the empty string when the line is the
    marker alone. *)
Theorem display_table_marker_only (c : ascii) (rest : string) :
  c = "<"%char \/ c = ">"%char ->
  let line := String c rest in
  let row := mkRow (Py.slice_from 2 line)
               (bool_decide (c = "<"%char)) (bool_decide (c = ">"%char)) in
  classify line = Some row /\
  (forall w,
     run (display_line line) w =
       (Ok tt, {| files := files w; stdout := stdout w ++ [render_row row] |})) /\
  (forall env1 env2 w,
     no_linebreak line = true ->
     run (display_table line env1 env2) w =
       (Ok tt, {| files := files w;
                  stdout := stdout w ++ table_header env1 env2 ++
                            [render_row row] |})) /\
  (rest = "" -> package row = "") /\
  (forall d rest', rest = String d rest' -> package row = rest').
Proof.
  intros Hc line row.
  assert (classify line = Some row) as Hrow by (by destruct Hc as [-> | ->]).
  repeat split.
  - exact Hrow.
  - intros w. by rewrite display_line_spec, Hrow.
  - intros env1 env2 w Hl.
    rewrite display_table_spec, splitlines_single by done.
    change (omap classify [line]) with (option_list (classify line)).
    by rewrite Hrow.
  - by intros ->.
  - by intros d rest' ->.
Qed.

(** ** The two-environment driver: temporary files *)

Lemma run_os_remove_Ok (path : string) (w w' : World) :
  run (os_remove path) w = (Ok tt, w') ->
  w' = {| files := delete path (files w); stdout := stdout w |}.
Proof.
  unfold os_remove. cbn. destruct (files w !! path); by intros [= <-].
Qed.

Lemma run_remove_both (w w' : World) :
  run (os_remove "env1_packages.txt" ;; os_remove "env2_packages.txt") w =
    (Ok tt, w') ->
  files w' !! "env1_packages.txt" = None /\
  files w' !! "env2_packages.txt" = None /\
  stdout w' = stdout w.
Proof.
  rewrite run_bind.
  destruct (run (os_remove "env1_packages.txt") w) as [[[]|e] w1] eqn:H1;
    [|done].
  apply run_os_remove_Ok in H1 as ->.
  intros ->%run_os_remove_Ok. cbn [files stdout]. repeat split.
  - by rewrite lookup_delete_ne, lookup_delete_eq.
  - by rewrite lookup_delete_eq.
Qed.

Section DriverFacts.
Variable host : Host.

Lemma check_diff_installed_stdout (w w' : World) :
  run (check_diff_installed host) w = (Ok tt, w') -> w' = w.
Proof.
  unfold check_diff_installed.
  destruct (negb (host_call_which host "diff" =? 0)).
  - rewrite run_bind, run_print. by cbn.
  - rewrite run_ret. by intros [= <-].
Qed.

Lemma find_conda_setup_stdout (w w' : World) (conda_setup : string) :
  run (find_conda_setup host) w = (Ok conda_setup, w') -> w' = w.
Proof.
  unfold find_conda_setup. rewrite run_bind. unfold lift. cbn [run].
  destruct (host_check_output_which host "conda"); [|done].
  rewrite run_ret. by intros [= _ <-].
Qed.

(** C8 (amended). Whenever [compare_envs] completes without raising,
    the table has been printed and the two temporary files
    env1_packages.txt and env2_packages.txt are gone from the working
    directory afterwards.  There is no release on the failing paths. *)
Theorem compare_envs_cleanup (env1 env2 : string) (w w' : World) :
  run (compare_envs host env1 env2) w = (Ok tt, w') ->
  files w' !! "env1_packages.txt" = None /\
  files w' !! "env2_packages.txt" = None /\
  exists diff_output,
    stdout w' = stdout w ++ table_header env1 env2 ++
      (render_row <$> omap classify (Py.splitlines diff_output)).
Proof.
  unfold compare_envs. rewrite run_bind.
  destruct (run (check_diff_installed host) w) as [[[]|e] w1] eqn:H1;
    [|done].
  apply check_diff_installed_stdout in H1 as ->.
  rewrite run_bind.
  destruct (run (find_conda_setup host) w) as [[conda_setup|e] w2] eqn:H2;
    [|done].
  apply find_conda_setup_stdout in H2 as ->.
  rewrite run_bind. unfold os_system at 1. cbn [run].
  rewrite run_bind. unfold run_diff at 1. cbn [run files].
  match goal with
  | |- context [host_run_diff host ?a ?b] =>
      destruct (host_run_diff host a b) as [diff_output|e]; [|done]
  end.
  rewrite run_bind, display_table_spec. cbn [files stdout].
  intros (Hf1 & Hf2 & Hout)%run_remove_both. cbn [stdout] in Hout.
  eauto.
Qed.

End DriverFacts.

(** ** The example scenarios, evaluated *)

Section Scenarios.
#[local] Existing Instance simple_match_spec.
Import Scenario.

Lemma compare_packages_all_matched_witness :
  Forall (fun e => exists s r,
            MatchSpec_new e = Ok s /\
            inventory !! MatchSpec_name s = Some r /\
            MatchSpec_match s r = true) ["numpy=1.2=0"; "requests"] /\
  compare_packages inventory ["numpy=1.2=0"; "requests"] =
    Ok (0, [success_msg]).
Proof.
  assert (Forall (fun e => exists s r,
            MatchSpec_new e = Ok s /\
            inventory !! MatchSpec_name s = Some r /\
            MatchSpec_match s r = true) ["numpy=1.2=0"; "requests"])
    as Hall.
  { constructor; [|constructor; [|constructor]].
    - exists (SimpleSpec.mk "numpy" (Some "1.2") (Some "0")), numpy.
      split_and!; vm_compute; reflexivity.
    - exists (SimpleSpec.mk "requests" None None), requests.
      split_and!; vm_compute; reflexivity. }
  split; [exact Hall|].
  exact (compare_packages_all_matched inventory _ Hall).
Defined.

Lemma inventory_specs_well_formed :
  Forall well_formed ["numpy=1.3"; "requests"; "flask"].
Proof. repeat constructor. Defined.

Lemma compare_packages_missing_witness :
  Forall well_formed ["numpy=1.3"; "requests"; "flask"] /\
  "flask" ∈ ["numpy=1.3"; "requests"; "flask"] /\
  MatchSpec_new "flask" = Ok (SimpleSpec.mk "flask" None None) /\
  inventory !! "flask" = None /\
  exists out,
    compare_packages inventory ["numpy=1.3"; "requests"; "flask"] =
      Ok (1, out) /\
    "flask not found" ∈ out.
Proof.
  assert ("flask" ∈ ["numpy=1.3"; "requests"; "flask"]) as Hin
    by (do 2 apply list_elem_of_further; apply list_elem_of_here).
  assert (inventory !! "flask" = None) as Hnone
    by (vm_compute; reflexivity).
  split_and!;
    [exact inventory_specs_well_formed|exact Hin|reflexivity|exact Hnone|].
  exact (compare_packages_missing inventory _ "flask"
           (SimpleSpec.mk "flask" None None)
           inventory_specs_well_formed Hin eq_refl Hnone).
Defined.

(** C2 as stated fails: "flask" is absent from the inventory, but the
    malformed entry after it makes the call raise, so no outcome code is
    returned. *)
Lemma compare_packages_missing_then_malformed :
  "flask" ∈ ["flask"; "=1.2"] /\
  MatchSpec_new "flask" = Ok (SimpleSpec.mk "flask" None None) /\
  inventory !! "flask" = None /\
  compare_packages inventory ["flask"; "=1.2"] =
    Raise (InvalidMatchSpec "=1.2") /\
  ¬ exists out,
      compare_packages inventory ["flask"; "=1.2"] = Ok (1, out) /\
      "flask not found" ∈ out.
Proof.
  split_and!; [apply list_elem_of_here|reflexivity..|].
  by intros (out & Hout & _).
Qed.

Lemma compare_packages_mismatch_witness :
  Forall well_formed ["numpy=1.3"; "requests"; "flask"] /\
  "numpy=1.3" ∈ ["numpy=1.3"; "requests"; "flask"] /\
  MatchSpec_new "numpy=1.3" = Ok (SimpleSpec.mk "numpy" (Some "1.3") None) /\
  inventory !! "numpy" = Some numpy /\
  MatchSpec_match (SimpleSpec.mk "numpy" (Some "1.3") None) numpy = false /\
  exists out line,
    compare_packages inventory ["numpy=1.3"; "requests"; "flask"] =
      Ok (1, out) /\
    line ∈ out /\ contains line "numpy=1.3" /\ contains line "numpy==1.2=0".
Proof.
  assert ("numpy=1.3" ∈ ["numpy=1.3"; "requests"; "flask"]) as Hin
    by apply list_elem_of_here.
  assert (inventory !! "numpy" = Some numpy) as Hsome
    by (vm_compute; reflexivity).
  split_and!;
    [exact inventory_specs_well_formed|exact Hin|reflexivity|exact Hsome
    |reflexivity|].
  exact (compare_packages_mismatch inventory _ "numpy=1.3"
           (SimpleSpec.mk "numpy" (Some "1.3") None) numpy
           inventory_specs_well_formed Hin eq_refl Hsome eq_refl).
Defined.

(** C3 as stated fails: numpy is installed with another version, but the
    malformed entry after it makes the call raise. *)
Lemma compare_packages_mismatch_then_malformed :
  "numpy=1.3" ∈ ["numpy=1.3"; "=1.2"] /\
  MatchSpec_new "numpy=1.3" = Ok (SimpleSpec.mk "numpy" (Some "1.3") None) /\
  inventory !! "numpy" = Some numpy /\
  MatchSpec_match (SimpleSpec.mk "numpy" (Some "1.3") None) numpy = false /\
  compare_packages inventory ["numpy=1.3"; "=1.2"] =
    Raise (InvalidMatchSpec "=1.2") /\
  ¬ exists out line,
      compare_packages inventory ["numpy=1.3"; "=1.2"] = Ok (1, out) /\
      line ∈ out /\ contains line "numpy=1.3" /\
      contains line "numpy==1.2=0".
Proof.
  split_and!; [apply list_elem_of_here|reflexivity..|].
  by intros (out & line & Hout & _).
Qed.

Lemma compare_packages_soft_failures_witness :
  Forall well_formed ["numpy=1.3"; "requests"; "flask"] /\
  Exists (failing inventory) ["numpy=1.3"; "requests"; "flask"] /\
  compare_packages inventory ["numpy=1.3"; "requests"; "flask"] =
    Ok (1, ["numpy found but mismatch. Specification pkg: numpy=1.3, " +:+
            "Running pkg: numpy==1.2=0";
            "flask not found"]).
Proof.
  assert (Exists (failing inventory) ["numpy=1.3"; "requests"; "flask"])
    as Hex by (apply Exists_cons_hd; vm_compute; eauto).
  split_and!; [exact inventory_specs_well_formed|exact Hex|].
  exact (proj1 (compare_packages_soft_failures inventory _
                  inventory_specs_well_formed Hex)).
Defined.

Lemma compare_packages_order_witness :
  compare_packages inventory ["numpy=1.3"; "requests"; "flask"] =
    Ok (1, [mismatch_line "numpy" "numpy=1.3" numpy; "flask not found"]) /\
  [mismatch_line "numpy" "numpy=1.3" numpy; "flask not found"] =
    report_lines inventory [] ++
    mismatch_line "numpy" "numpy=1.3" numpy ::
    report_lines inventory ["requests"] ++
    "flask not found" :: report_lines inventory [] /\
  compare_packages (active_pkgs_of [requests; numpy])
    ["numpy=1.3"; "requests"; "flask"] =
  compare_packages (active_pkgs_of [numpy; requests])
    ["numpy=1.3"; "requests"; "flask"].
Proof.
  destruct (@compare_packages_order simple_match_spec) as (_ & Hpos & Hperm).
  assert (compare_packages inventory ["numpy=1.3"; "requests"; "flask"] =
            Ok (1, [mismatch_line "numpy" "numpy=1.3" numpy;
                    "flask not found"])) as Hrun by reflexivity.
  split_and!.
  - exact Hrun.
  - exact (Hpos inventory [] "numpy=1.3" ["requests"] "flask" [] _ _ _ _
             Hrun eq_refl eq_refl).
  - apply Hperm.
    + apply (bool_decide_unpack _). vm_compute. exact I.
    + apply Permutation_swap.
Defined.

Lemma compare_packages_fail_fast_witness :
  ¬ Forall well_formed ["flask"; "=1.2"; "numpy"] /\
  exists pre e post ex,
    ["flask"; "=1.2"; "numpy"] = pre ++ e :: post /\
    Forall well_formed pre /\
    MatchSpec_new e = Raise ex /\
    (forall post', compare_packages inventory (pre ++ e :: post') = Raise ex) /\
    (forall r, compare_packages inventory ["flask"; "=1.2"; "numpy"] ≠ Ok r).
Proof.
  assert (¬ Forall well_formed ["flask"; "=1.2"; "numpy"]) as Hnwf.
  { intros Hwf. rewrite Forall_forall in Hwf.
    apply (Hwf "=1.2"). apply list_elem_of_further, list_elem_of_here. }
  split; [exact Hnwf|].
  exact (compare_packages_fail_fast inventory _ Hnwf).
Defined.

(** C6 as stated fails for a malformed entry that is not the first one:
    the error raised is that of the first, "=1", not that of "=2". *)
Lemma compare_packages_error_of_first_malformed :
  "=2" ∈ ["=1"; "=2"] /\
  MatchSpec_new "=2" = Raise (InvalidMatchSpec "=2") /\
  compare_packages inventory ["=1"; "=2"] = Raise (InvalidMatchSpec "=1") /\
  compare_packages inventory ["=1"; "=2"] ≠ Raise (InvalidMatchSpec "=2").
Proof.
  split_and!; [apply list_elem_of_further, list_elem_of_here|reflexivity..|].
  by intros [=].
Qed.

Lemma compare_packages_output_nonempty_witness :
  compare_packages inventory [] = Ok (0, [success_msg]) /\
  compare_packages inventory ["flask"] = Ok (1, ["flask not found"]) /\
  ["flask not found"] ≠ [].
Proof.
  destruct (@compare_packages_output_nonempty simple_match_spec)
    as (Hnil & Hne).
  assert (compare_packages inventory ["flask"] =
            Ok (1, ["flask not found"])) as Hrun by reflexivity.
  split_and!; [exact (Hnil inventory)|exact Hrun|].
  exact (Hne inventory ["flask"] 1 _ Hrun).
Defined.

Lemma display_table_rows_witness :
  run (display_table diff_text "base" "test") empty_world =
    (Ok tt,
     {| files := ∅;
        stdout := table_header "base" "test" ++
                  [render_row (mkRow "foo-1.0" true false);
                   render_row (mkRow "bar-2.0" false true)] |}) /\
  Py.splitlines (Py.unlines ["< foo-1.0"; "---"; "> foo-1.0"]) =
    ["< foo-1.0"; "---"; "> foo-1.0"] /\
  omap classify ["< foo-1.0"; "> foo-1.0"] =
    [mkRow "foo-1.0" true false; mkRow "foo-1.0" false true].
Proof.
  destruct display_table_rows
    as (Hrun & Hlines & _ & _ & _ & _ & _ & Htwo).
  split_and!.
  - rewrite Hrun. reflexivity.
  - apply Hlines. repeat constructor.
  - exact (Htwo "foo-1.0").
Defined.

Lemma display_table_marker_only_witness :
  ("<"%char = "<"%char \/ "<"%char = ">"%char) /\
  classify "<x" = Some (mkRow "" true false) /\
  run (display_line "<") empty_world =
    (Ok tt, {| files := ∅;
               stdout := [render_row (mkRow "" true false)] |}).
Proof.
  assert ("<"%char = "<"%char \/ "<"%char = ">"%char) as Hc
    by (left; reflexivity).
  split_and!; [exact Hc| |].
  - exact (proj1 (display_table_marker_only "<" "x" Hc)).
  - exact (proj1 (proj2 (display_table_marker_only "<" "" Hc)) empty_world).
Defined.

Lemma compare_envs_cleanup_witness :
  let r := run (compare_envs good_host "base" "test") empty_world in
  r = (Ok tt, r.2) /\
  files r.2 !! "env1_packages.txt" = None /\
  files r.2 !! "env2_packages.txt" = None.
Proof.
  intros r.
  assert (r = (Ok tt, r.2)) as Hr by (vm_compute; reflexivity).
  split; [exact Hr|].
  destruct (compare_envs_cleanup good_host "base" "test" empty_world r.2 Hr)
    as (H1 & H2 & _).
  split; [exact H1|exact H2].
Defined.

(** C8 as stated fails: when the [diff] process cannot be run, the call
    raises after the shell command has written both files, and nothing
    removes them. *)
Lemma compare_envs_leaves_files_when_diff_raises :
  let r := run (compare_envs failing_diff_host "base" "test") empty_world in
  r.1 = Raise OSError /\
  files r.2 !! "env1_packages.txt" = Some ("foo-1.0" +:+ nl) /\
  files r.2 !! "env2_packages.txt" = Some ("bar-2.0" +:+ nl).
Proof. vm_compute. by split_and!. Qed.

End Scenarios.

(** * Further properties of the module *)

(** ** [compare_packages]: when it returns, and with which code *)

Section SpecMatcherMore.
Context `{MatchSpecAPI}.
Implicit Types (I : gmap string PackageRecord.t) (S : list string).

Lemma report_lines_nil_inv I S :
  report_lines I S = [] -> Forall (fun e => report_line I e = None) S.
Proof.
  induction S as [|e S IH]; [constructor|].
  rewrite report_lines_cons.
  destruct (report_line I e) as [l|] eqn:He; [done|].
  intros HS. constructor; [done|]. by apply IH.
Qed.

Lemma report_line_None_matched I e :
  well_formed e -> report_line I e = None -> matched I e.
Proof.
  intros [s Hs]%is_Ok_inv. unfold report_line, verdict, matched.
  rewrite Hs. cbn.
  destruct (I !! MatchSpec_name s) as [r|] eqn:Hr; cbn; [|done].
  destruct (MatchSpec_match s r) eqn:Hm; cbn; [|done].
  intros _. by exists s, r.
Qed.

Lemma matched_report_line I e : matched I e -> report_line I e = None.
Proof. intros (s & r & Hs & Hr & Hm). by eapply report_line_matched. Qed.

Lemma matched_well_formed I e : matched I e -> well_formed e.
Proof. intros (s & r & Hs & _). unfold well_formed. by rewrite Hs. Qed.

(** X1. [compare_packages] returns a result exactly when every entry of
    the specification list parses; the inventory never makes it raise. *)
Theorem compare_packages_returns_iff I S :
  is_Ok (compare_packages I S) <-> Forall well_formed S.
Proof.
  split.
  - destruct (compare_packages I S) as [r|] eqn:Hr; [|done].
    intros _. by eapply compare_packages_Ok_wf.
  - intros Hwf. by rewrite compare_packages_wf.
Qed.

(** X2. The outcome code is 0 exactly when every entry is matched: each
    parses, names an installed package, and that package's record
    satisfies it.  One missing or mismatched entry is enough for code 1. *)
Theorem compare_packages_zero_iff I S :
  (exists out, compare_packages I S = Ok (0, out)) <-> Forall (matched I) S.
Proof.
  split.
  - intros [out Hr].
    pose proof (compare_packages_Ok_wf _ _ _ Hr) as Hwf.
    rewrite compare_packages_wf in Hr by done.
    destruct (report_lines I S) as [|l ls] eqn:Hls; [|done].
    apply report_lines_nil_inv in Hls.
    apply Forall_forall. intros e He.
    apply report_line_None_matched.
    + by apply (proj1 (Forall_forall _ _) Hwf).
    + by apply (proj1 (Forall_forall _ _) Hls).
  - intros Hall. exists [success_msg].
    rewrite compare_packages_wf, report_lines_nil; [done| |].
    + eapply Forall_impl; [exact Hall|]. apply matched_report_line.
    + eapply Forall_impl; [exact Hall|]. apply matched_well_formed.
Qed.

Lemma compare_loop_app I S1 S2 acc :
  compare_loop I acc (S1 ++ S2) =
    compare_loop I acc S1 ≫= fun acc' => compare_loop I acc' S2.
Proof.
  revert acc. induction S1 as [|e S1 IH]; intros acc; [done|].
  cbn [app compare_loop].
  destruct (compare_step I acc e) as [acc'|ex]; [|done].
  rewrite !result_bind_Ok. apply IH.
Qed.

Lemma compare_packages_Ok_lines I S code out :
  compare_packages I S = Ok (code, out) ->
  Forall well_formed S /\
  code = Z.b2z (nonempty (report_lines I S)) /\
  out = if nonempty (report_lines I S) then report_lines I S
        else [success_msg].
Proof.
  intros Hr. pose proof (compare_packages_Ok_wf _ _ _ Hr) as Hwf.
  rewrite compare_packages_wf in Hr by done.
  destruct (report_lines I S); by injection Hr as <- <-.
Qed.

(** X3. Checking a concatenated list combines the two separate checks:
    the code is the larger of the two codes, and the output is the
    explanation lines of the first part followed by those of the second,
    with the single success line only when both parts succeed.  An
    exception in either part is the exception of the whole. *)
Theorem compare_packages_app I S1 S2 :
  (forall c1 o1 c2 o2,
     compare_packages I S1 = Ok (c1, o1) ->
     compare_packages I S2 = Ok (c2, o2) ->
     compare_packages I (S1 ++ S2) =
       Ok (Z.max c1 c2,
           if (c1 =? 0) && (c2 =? 0) then [success_msg]
           else (if c1 =? 0 then [] else o1) ++
                (if c2 =? 0 then [] else o2))) /\
  (forall ex,
     compare_packages I S1 = Raise ex ->
     compare_packages I (S1 ++ S2) = Raise ex) /\
  (forall r1 ex,
     compare_packages I S1 = Ok r1 ->
     compare_packages I S2 = Raise ex ->
     compare_packages I (S1 ++ S2) = Raise ex).
Proof.
  split_and!.
  - intros c1 o1 c2 o2
      (Hwf1 & -> & ->)%compare_packages_Ok_lines
      (Hwf2 & -> & ->)%compare_packages_Ok_lines.
    rewrite compare_packages_wf by (by apply Forall_app).
    rewrite report_lines_app.
    destruct (report_lines I S1) as [|l1 ls1], (report_lines I S2);
      cbn; by rewrite ?app_nil_r.
  - intros ex Hr. unfold compare_packages in *.
    rewrite compare_loop_app.
    destruct (compare_loop I _ S1) as [acc|ex']; [done|].
    by injection Hr as ->.
  - intros r1 ex Hr1 Hr2.
    pose proof (compare_packages_Ok_wf _ _ _ Hr1) as Hwf1.
    destruct (first_malformed S2)
      as [Hwf2|(pre & e & post & ex' & -> & Hpre & He)].
    + by rewrite compare_packages_wf in Hr2.
    + rewrite (compare_packages_raise _ _ _ _ _ Hpre He) in Hr2.
      injection Hr2 as ->.
      rewrite app_assoc. apply compare_packages_raise; [|done].
      by apply Forall_app.
Qed.

Lemma compare_step_frame I I' acc e :
  (forall s, MatchSpec_new e = Ok s ->
             I !! MatchSpec_name s = I' !! MatchSpec_name s) ->
  compare_step I acc e = compare_step I' acc e.
Proof.
  intros Hagree. unfold compare_step.
  destruct (MatchSpec_new e) as [s|ex]; [|done].
  rewrite !result_bind_Ok. cbn. by rewrite (Hagree s eq_refl).
Qed.

(** X4. The result depends on the inventory only through the packages
    the specification names: two inventories that agree on the name of
    every entry give the same result.  Packages that are installed but
    not named in the list are never reported and never change the
    outcome. *)
Theorem compare_packages_inventory_frame I I' S :
  (forall e s, e ∈ S -> MatchSpec_new e = Ok s ->
               I !! MatchSpec_name s = I' !! MatchSpec_name s) ->
  compare_packages I S = compare_packages I' S.
Proof.
  intros Hagree. unfold compare_packages. f_equal.
  generalize {| output := []; miss := false |}.
  induction S as [|e S IH]; intros acc; [done|]. cbn [compare_loop].
  rewrite (compare_step_frame I I' acc e).
  - destruct (compare_step I' acc e) as [acc'|ex]; [|done].
    rewrite !result_bind_Ok. apply IH.
    intros e' s He'. apply Hagree. by apply list_elem_of_further.
  - intros s. apply Hagree. apply list_elem_of_here.
Qed.

(** X5. Nothing is deduplicated: a failing entry that occurs [n] times
    (n > 0) is reported [n] times. *)
Theorem compare_packages_repeated I e l (n : nat) :
  well_formed e -> report_line I e = Some l -> (0 < n)%nat ->
  compare_packages I (replicate n e) = Ok (1, replicate n l).
Proof.
  intros Hwf Hl Hn.
  rewrite compare_packages_wf by (by apply Forall_replicate).
  assert (report_lines I (replicate n e) = replicate n l) as ->.
  { clear Hn. induction n as [|n IH]; [done|]. cbn [replicate].
    by rewrite report_lines_cons, Hl, IH. }
  destruct n; [lia|done].
Qed.

End SpecMatcherMore.

(** ** The inventory: [get_packages] and the mapping built from it *)

Lemma active_pkgs_of_foldl (pkgs : list PackageRecord.t)
    (m : gmap string PackageRecord.t) :
  foldl (fun m pkg => <[PackageRecord.name pkg := pkg]> m) m pkgs =
    active_pkgs_of pkgs ∪ m.
Proof.
  unfold active_pkgs_of. revert m.
  induction pkgs as [|pkg pkgs IH]; intros m; cbn [foldl].
  - by rewrite (left_id ∅ (∪)).
  - rewrite IH, (IH (<[_:=_]> ∅)).
    rewrite !insert_union_singleton_l, (right_id ∅ (∪)).
    by rewrite (assoc (∪)).
Qed.

Lemma active_pkgs_of_cons (pkg : PackageRecord.t) (pkgs : list PackageRecord.t) :
  active_pkgs_of (pkg :: pkgs) =
    active_pkgs_of pkgs ∪ {[PackageRecord.name pkg := pkg]}.
Proof.
  unfold active_pkgs_of at 1. cbn [foldl].
  by rewrite active_pkgs_of_foldl, insert_union_singleton_l, (right_id ∅ (∪)).
Qed.

Lemma active_pkgs_of_app (pkgs1 pkgs2 : list PackageRecord.t) :
  active_pkgs_of (pkgs1 ++ pkgs2) = active_pkgs_of pkgs2 ∪ active_pkgs_of pkgs1.
Proof.
  unfold active_pkgs_of at 1. rewrite foldl_app.
  by rewrite active_pkgs_of_foldl.
Qed.

Lemma active_pkgs_of_lookup_None (pkgs : list PackageRecord.t) (k : string) :
  active_pkgs_of pkgs !! k = None <-> k ∉ PackageRecord.name <$> pkgs.
Proof.
  induction pkgs as [|pkg pkgs IH] using rev_ind.
  - split; [intros _; apply not_elem_of_nil|done].
  - rewrite active_pkgs_of_snoc, fmap_app, not_elem_of_app. cbn.
    rewrite list_elem_of_singleton.
    destruct (decide (PackageRecord.name pkg = k)) as [<-|Hne].
    + rewrite lookup_insert_eq. split; [done|]. by intros [_ ?].
    + rewrite lookup_insert_ne, IH by done. split; [|by intros [? _]].
      intros Hk. split; [done|]. by intros ->.
Qed.

(** X6. The inventory keeps, for each name, the last record of that name
    in the provider's list: an earlier duplicate is silently replaced. *)
Theorem active_pkgs_of_last_wins (pre post : list PackageRecord.t)
    (pkg : PackageRecord.t) :
  (forall q, q ∈ post -> PackageRecord.name q ≠ PackageRecord.name pkg) ->
  active_pkgs_of (pre ++ pkg :: post) !! PackageRecord.name pkg = Some pkg.
Proof.
  intros Hpost. rewrite active_pkgs_of_app, active_pkgs_of_cons.
  apply lookup_union_Some_l. rewrite lookup_union_r.
  - apply lookup_singleton_eq.
  - apply active_pkgs_of_lookup_None.
    intros (q & Hq & Hin)%list_elem_of_fmap. by apply (Hpost q).
Qed.

(** X7. Every record of the inventory is filed under its own name and
    comes from the provider's list, and a name is a key of the inventory
    exactly when some listed record bears it. *)
Theorem active_pkgs_of_lookup (pkgs : list PackageRecord.t) (k : string) :
  (forall r, active_pkgs_of pkgs !! k = Some r ->
             r ∈ pkgs /\ PackageRecord.name r = k) /\
  (is_Some (active_pkgs_of pkgs !! k) <-> k ∈ PackageRecord.name <$> pkgs).
Proof.
  split.
  - induction pkgs as [|pkg pkgs IH] using rev_ind; [done|].
    intros r. rewrite active_pkgs_of_snoc.
    destruct (decide (PackageRecord.name pkg = k)) as [<-|Hne].
    + rewrite lookup_insert_eq. intros [= <-]. split; [|done].
      apply elem_of_app. right. apply list_elem_of_here.
    + rewrite lookup_insert_ne by done. intros [Hr Hk]%IH.
      split; [|done]. apply elem_of_app. by left.
  - rewrite <- not_eq_None_Some, active_pkgs_of_lookup_None.
    split; [apply dec_stable|by intros ? ?].
Qed.

(** *** Sorting by name *)

Lemma leb_false_ne (a b : string) : String.leb a b = false -> a ≠ b.
Proof.
  intros Hleb ->.
  pose proof (reflexivity (R := String.le) b) as Hrefl.
  unfold String.le in Hrefl. by rewrite Hleb in Hrefl.
Qed.

Lemma leb_false_le (a b : string) : String.leb a b = false -> String.le b a.
Proof.
  intros Hleb. destruct (total String.le a b) as [Hab|Hba]; [|done].
  unfold String.le in Hab. by rewrite Hleb in Hab.
Qed.

Lemma insert_by_name_perm (x : PackageRecord.t) (l : list PackageRecord.t) :
  insert_by_name x l ≡ₚ x :: l.
Proof.
  induction l as [|y l IH]; [done|]. cbn.
  destruct (String.leb _ _); [done|].
  by rewrite IH, Permutation_swap.
Qed.

Lemma insert_by_name_sorted (x : PackageRecord.t) (l : list PackageRecord.t) :
  StronglySorted name_le l -> StronglySorted name_le (insert_by_name x l).
Proof.
  induction 1 as [|y l Hl IH Hy]; cbn.
  - repeat constructor.
  - destruct (String.leb _ _) eqn:Hleb.
    + constructor; [by constructor|].
      assert (name_le x y) as Hxy by (unfold name_le, String.le; by rewrite Hleb).
      constructor; [done|].
      eapply Forall_impl; [exact Hy|].
      intros z Hyz. unfold name_le in *. by etrans.
    + constructor; [done|].
      rewrite insert_by_name_perm. constructor; [|done].
      by apply leb_false_le.
Qed.

Lemma sorted_by_name_perm (l : list PackageRecord.t) : sorted_by_name l ≡ₚ l.
Proof.
  induction l as [|x l IH]; [done|]. cbn.
  by rewrite insert_by_name_perm, IH.
Qed.

Lemma sorted_by_name_sorted (l : list PackageRecord.t) :
  StronglySorted name_le (sorted_by_name l).
Proof.
  induction l as [|x l IH]; [constructor|].
  by apply insert_by_name_sorted.
Qed.

Lemma active_pkgs_of_insert_by_name (x : PackageRecord.t)
    (l : list PackageRecord.t) :
  active_pkgs_of (insert_by_name x l) = active_pkgs_of (x :: l).
Proof.
  induction l as [|y l IH]; [done|]. cbn [insert_by_name].
  destruct (String.leb _ _) eqn:Hleb; [done|].
  apply leb_false_ne in Hleb.
  rewrite (active_pkgs_of_cons y), IH, !active_pkgs_of_cons.
  rewrite <- !(assoc (∪)). f_equal.
  apply map_union_comm, map_disjoint_singleton_l.
  by rewrite lookup_singleton_ne.
Qed.

Lemma active_pkgs_of_sorted (l : list PackageRecord.t) :
  active_pkgs_of (sorted_by_name l) = active_pkgs_of l.
Proof.
  induction l as [|x l IH]; [done|]. cbn [sorted_by_name foldr].
  rewrite active_pkgs_of_insert_by_name, !active_pkgs_of_cons.
  by rewrite <- IH.
Qed.

(** X8. [get_packages] raises EnvironmentLocationNotFound, naming the
    prefix, when the prefix is not a directory; otherwise it returns the
    provider's records, all of them and no others, in ascending order of
    name. *)
Theorem get_packages_sorted (host : Prefixes) (prefix : string) :
  (os_path_isdir host prefix = false ->
   get_packages host prefix = inl (EnvironmentLocationNotFound prefix)) /\
  (os_path_isdir host prefix = true ->
   exists pkgs,
     get_packages host prefix = inr pkgs /\
     pkgs ≡ₚ iter_records host prefix /\
     StronglySorted name_le pkgs).
Proof.
  unfold get_packages. split; intros ->; cbn; [done|].
  eexists. split; [done|].
  split; [apply sorted_by_name_perm|apply sorted_by_name_sorted].
Qed.

(** X9. Sorting does not change the inventory [execute] builds: records
    of the same name keep their relative order, so the mapping made from
    the result of [get_packages] is the mapping made from the provider's
    list, with the provider's last record of each name. *)
Theorem get_packages_inventory (host : Prefixes) (prefix : string)
    (pkgs : list PackageRecord.t) :
  get_packages host prefix = inr pkgs ->
  active_pkgs_of pkgs = active_pkgs_of (iter_records host prefix).
Proof.
  unfold get_packages. destruct (os_path_isdir host prefix); cbn; [|done].
  intros [= <-]. apply active_pkgs_of_sorted.
Qed.

(** ** Reversal and stripping of strings *)

Lemma str_rev_app_spec (s acc : string) :
  String.rev_app s acc = String.rev s +:+ acc.
Proof.
  unfold String.rev. revert acc.
  induction s as [|a s IH]; intros acc; [done|]. cbn [String.rev_app].
  by rewrite IH, (IH (String a "")), str_app_assoc.
Qed.

Lemma str_rev_cons (a : ascii) (s : string) :
  String.rev (String a s) = String.rev s +:+ String a "".
Proof. unfold String.rev at 1. cbn [String.rev_app]. apply str_rev_app_spec. Qed.

Lemma str_rev_app (s t : string) :
  String.rev (s +:+ t) = String.rev t +:+ String.rev s.
Proof.
  induction s as [|a s IH].
  - by rewrite str_app_nil_l, str_app_nil_r.
  - by rewrite str_app_cons, !str_rev_cons, IH, str_app_assoc.
Qed.

Lemma str_rev_involutive (s : string) : String.rev (String.rev s) = s.
Proof.
  induction s as [|a s IH]; [done|].
  by rewrite str_rev_cons, str_rev_app, IH.
Qed.

Lemma str_forallb_app (p : ascii -> bool) (s t : string) :
  str_forallb p (s +:+ t) = str_forallb p s && str_forallb p t.
Proof.
  induction s as [|a s IH]; [done|].
  rewrite str_app_cons. cbn. by rewrite IH, andb_assoc.
Qed.

Lemma str_forallb_rev (p : ascii -> bool) (s : string) :
  str_forallb p (String.rev s) = str_forallb p s.
Proof.
  induction s as [|a s IH]; [done|].
  rewrite str_rev_cons, str_forallb_app, IH. cbn.
  by rewrite andb_true_r, andb_comm.
Qed.

(** Stripping removes a run of strippable characters and stops at the
    first character that is not. *)
Lemma lstrip_by_run (p : ascii -> bool) (run : string) (c : ascii)
    (rest : string) :
  str_forallb p run = true -> p c = false ->
  Py.lstrip_by p (run +:+ String c rest) = String c rest.
Proof.
  intros Hrun Hc. induction run as [|a run IH].
  - rewrite str_app_nil_l. cbn. by rewrite Hc.
  - cbn in Hrun. apply andb_true_iff in Hrun as [Ha Hrun].
    rewrite str_app_cons. cbn. rewrite Ha. by apply IH.
Qed.

Lemma rstrip_by_run (p : ascii -> bool) (s : string) (c : ascii)
    (run : string) :
  str_forallb p run = true -> p c = false ->
  Py.rstrip_by p (s +:+ String c run) = s +:+ String c "".
Proof.
  intros Hrun Hc. unfold Py.rstrip_by.
  replace (s +:+ String c run) with ((s +:+ String c "") +:+ run)
    by (by rewrite str_app_assoc).
  rewrite str_rev_app, str_rev_app. change (String.rev (String c "")) with
    (String c "").
  rewrite str_app_cons, str_app_nil_l.
  rewrite lstrip_by_run by (by rewrite ?str_forallb_rev).
  change (String c (String.rev s)) with (String c "" +:+ String.rev s).
  by rewrite str_rev_app, str_rev_involutive.
Qed.

(** ** Paths *)

Lemma endswith_sep_snoc (s : string) (c : ascii) :
  posixpath.endswith_sep (s +:+ String c "") = posixpath.is_sep c.
Proof. unfold posixpath.endswith_sep. by rewrite str_rev_app. Qed.

(** A non-empty string has a last character. *)
Lemma str_last (s : string) :
  s ≠ "" -> exists s' c, s = s' +:+ String c "".
Proof.
  intros Hs. destruct (String.rev s) as [|c r] eqn:Hrev.
  - apply (f_equal String.rev) in Hrev.
    by rewrite str_rev_involutive in Hrev.
  - exists (String.rev r), c.
    apply (f_equal String.rev) in Hrev.
    by rewrite str_rev_involutive, str_rev_cons in Hrev.
Qed.

Lemma all_sep_forallb (s : string) :
  posixpath.all_sep s = str_forallb posixpath.is_sep s.
Proof. induction s as [|a s IH]; [done|]. cbn. by rewrite IH. Qed.

(** [dirname] of "d/b", for a directory part [d] that is not empty and
    does not end in a separator and a last component [b] without one. *)
Lemma dirname_child (d b : string) :
  d ≠ "" -> posixpath.endswith_sep d = false ->
  str_forallb not_sep b = true ->
  posixpath.dirname (d +:+ "/" +:+ b) = d.
Proof.
  intros [d' [c ->]]%str_last Hend Hb.
  rewrite endswith_sep_snoc in Hend.
  assert (posixpath.head_of ((d' +:+ String c "") +:+ "/" +:+ b) =
            (d' +:+ String c "") +:+ "/") as Hhead.
  { unfold posixpath.head_of.
    change (fun c0 => negb (posixpath.is_sep c0)) with not_sep.
    rewrite !str_rev_app. change (String.rev "/") with "/".
    rewrite str_app_assoc, (str_app_cons "/" ""), str_app_nil_l.
    rewrite lstrip_by_run; [|by rewrite str_forallb_rev|done].
    by rewrite str_rev_cons, str_rev_app, !str_rev_involutive. }
  unfold posixpath.dirname. rewrite Hhead.
  rewrite all_sep_forallb, !str_forallb_app. cbn [str_forallb].
  rewrite Hend, andb_false_r, andb_false_l, andb_true_r.
  rewrite bool_decide_false.
  - rewrite str_app_assoc. cbn [negb]. rewrite str_app_cons, str_app_nil_l.
    by rewrite (rstrip_by_run posixpath.is_sep d' c "/").
  - intros Hnil. apply (f_equal String.length) in Hnil.
    destruct d'; discriminate.
Qed.

Lemma endswith_sep_app (path b : string) :
  b ≠ "" -> posixpath.endswith_sep (path +:+ b) = posixpath.endswith_sep b.
Proof.
  intros [b' [c ->]]%str_last.
  by rewrite <- str_app_assoc, !endswith_sep_snoc.
Qed.

Lemma str_app_not_nil_l (s t : string) : s ≠ "" -> s +:+ t ≠ "".
Proof. by destruct s. Qed.

Lemma join1_plain (path b : string) :
  path ≠ "" -> posixpath.endswith_sep path = false ->
  Py.startswith b "/" = false ->
  posixpath.join1 path b = path +:+ "/" +:+ b.
Proof.
  intros Hpath Hend Hb. unfold posixpath.join1.
  by rewrite Hb, Hend, bool_decide_false.
Qed.

Lemma not_sep_endswith (dir : string) :
  dir ≠ "" -> str_forallb not_sep dir = true ->
  posixpath.endswith_sep dir = false.
Proof.
  intros [dir' [c ->]]%str_last Hdir.
  rewrite str_forallb_app in Hdir. cbn in Hdir.
  rewrite andb_true_r in Hdir. apply andb_true_iff in Hdir as [_ Hc].
  rewrite endswith_sep_snoc. by apply negb_true_iff.
Qed.

Lemma lstrip_by_length (p : ascii -> bool) (s : string) :
  (String.length (Py.lstrip_by p s) <= String.length s)%nat.
Proof.
  induction s as [|a s IH]; cbn; [lia|].
  destruct (p a); cbn; lia.
Qed.

(** A string that stripping leaves alone does not start with a
    strippable character. *)
Lemma lstrip_by_fixed (p : ascii -> bool) (c : ascii) (s : string) :
  Py.lstrip_by p (String c s) = String c s -> p c = false.
Proof.
  cbn. destruct (p c); [|done].
  intros Heq%(f_equal String.length).
  pose proof (lstrip_by_length p s). cbn in Heq. lia.
Qed.

Lemma conda_setup_of_prefix (P dir : string) :
  P ≠ "" -> Py.lstrip_by Py.isspace P = P ->
  posixpath.endswith_sep P = false ->
  dir ≠ "" -> str_forallb not_sep dir = true ->
  conda_setup_of (P +:+ "/" +:+ dir +:+ "/conda" +:+ nl) =
    P +:+ "/etc/profile.d/conda.sh".
Proof.
  intros HP Hlead Hend Hdir Hnosep. unfold conda_setup_of.
  assert (Py.strip (P +:+ "/" +:+ dir +:+ "/conda" +:+ nl) =
            (P +:+ "/" +:+ dir) +:+ "/" +:+ "conda") as ->.
  { unfold Py.strip.
    assert (Py.lstrip_by Py.isspace (P +:+ "/" +:+ dir +:+ "/conda" +:+ nl) =
              P +:+ "/" +:+ dir +:+ "/conda" +:+ nl) as ->.
    { destruct P as [|c0 P']; [done|].
      rewrite str_app_cons. cbn. by rewrite (lstrip_by_fixed _ _ _ Hlead). }
    replace (P +:+ "/" +:+ dir +:+ "/conda" +:+ nl)
      with ((P +:+ "/" +:+ dir +:+ "/cond") +:+ String "a" nl)
      by (by rewrite !str_app_assoc).
    rewrite rstrip_by_run by done. by rewrite !str_app_assoc. }
  rewrite dirname_child; [|by apply str_app_not_nil_l| |done].
  - rewrite dirname_child by done.
    unfold posixpath.join. cbn [foldl].
    rewrite (join1_plain P) by done.
    rewrite (join1_plain (P +:+ "/" +:+ "etc"));
      [|by apply str_app_not_nil_l|by rewrite endswith_sep_app|done].
    rewrite join1_plain;
      [|by do 2 apply str_app_not_nil_l|by rewrite endswith_sep_app|done].
    by rewrite !str_app_assoc.
  - rewrite endswith_sep_app by (by destruct dir).
    rewrite endswith_sep_app by done. by apply not_sep_endswith.
Qed.

(** ** The two-environment driver, path by path *)

Section DriverMore.
Variable host : Host.

Lemma run_check_diff_installed_ok (w : World) :
  host_call_which host "diff" = 0 ->
  run (check_diff_installed host) w = (Ok tt, w).
Proof. intros Hwhich. unfold check_diff_installed. by rewrite Hwhich. Qed.

Lemma run_find_conda_setup (w : World) :
  run (find_conda_setup host) w =
    match host_check_output_which host "conda" with
    | Ok which_conda => (Ok (conda_setup_of which_conda), w)
    | Raise e => (Raise e, w)
    end.
Proof.
  unfold find_conda_setup. rewrite run_bind. unfold lift. cbn [run].
  by destruct (host_check_output_which host "conda").
Qed.

(** Once [diff] and [conda] have been found, the run is decided by what
    the shell command leaves in the working directory and by the [diff]
    step. *)
Lemma run_compare_envs_after_setup (env1 env2 which_conda : string)
    (w : World) :
  host_call_which host "diff" = 0 ->
  host_check_output_which host "conda" = Ok which_conda ->
  run (compare_envs host env1 env2) w =
    let fs := host_system host
                (list_command (conda_setup_of which_conda) env1 env2)
                (files w) in
    match host_run_diff host (fs !! "env1_packages.txt")
            (fs !! "env2_packages.txt") with
    | Raise e => (Raise e, {| files := fs; stdout := stdout w |})
    | Ok diff_output =>
        run (os_remove "env1_packages.txt" ;; os_remove "env2_packages.txt")
          {| files := fs;
             stdout := stdout w ++ table_header env1 env2 ++
               (render_row <$> omap classify (Py.splitlines diff_output)) |}
    end.
Proof.
  intros Hdiff Hconda. unfold compare_envs.
  rewrite run_bind, run_check_diff_installed_ok by done. cbn beta iota.
  rewrite run_bind, run_find_conda_setup, Hconda. cbn beta iota.
  rewrite run_bind. unfold os_system at 1. cbn [run].
  rewrite run_bind. unfold run_diff at 1. cbn [run files].
  fold (list_command (conda_setup_of which_conda) env1 env2).
  destruct (host_run_diff host _ _) as [diff_output|e]; [|done].
  by rewrite run_bind, display_table_spec.
Qed.

Lemma run_compare_envs_without_diff (env1 env2 : string) (w : World) :
  host_call_which host "diff" ≠ 0 ->
  run (compare_envs host env1 env2) w =
    (Raise (SystemExit 1),
     {| files := files w;
        stdout := stdout w ++
          ["diff command could not be found. Please install it to proceed."] |}).
Proof.
  intros Hwhich%Z.eqb_neq. unfold compare_envs, check_diff_installed.
  by rewrite run_bind, Hwhich.
Qed.

Lemma run_compare_envs_without_conda (env1 env2 : string) (w : World)
    (e : Exn) :
  host_call_which host "diff" = 0 ->
  host_check_output_which host "conda" = Raise e ->
  run (compare_envs host env1 env2) w = (Raise e, w).
Proof.
  intros Hdiff Hconda. unfold compare_envs.
  rewrite run_bind, run_check_diff_installed_ok by done. cbn beta iota.
  by rewrite run_bind, run_find_conda_setup, Hconda.
Qed.

(** X10. Without [diff] on the host, [compare_envs] prints the
    diagnostic and exits with status 1 before anything else happens: no
    shell command is run and no file of the working directory changes. *)
Theorem compare_envs_diff_missing (env1 env2 : string) (w : World) :
  host_call_which host "diff" ≠ 0 ->
  run (compare_envs host env1 env2) w =
    (Raise (SystemExit 1),
     {| files := files w;
        stdout := stdout w ++
          ["diff command could not be found. Please install it to proceed."] |}).
Proof.
  intros Hwhich%Z.eqb_neq. unfold compare_envs.
  rewrite run_bind. unfold check_diff_installed.
  rewrite Hwhich. cbn [negb].
  by rewrite run_bind, run_print.
Qed.

(** X11. When [which conda] fails, [compare_envs] raises that error with
    nothing printed and no file changed: the shell command is not run. *)
Theorem compare_envs_conda_missing (env1 env2 : string) (w : World) (e : Exn) :
  host_call_which host "diff" = 0 ->
  host_check_output_which host "conda" = Raise e ->
  run (compare_envs host env1 env2) w = (Raise e, w).
Proof.
  intros Hdiff Hconda. unfold compare_envs.
  rewrite run_bind, run_check_diff_installed_ok by done. cbn beta iota.
  rewrite run_bind, run_find_conda_setup, Hconda.
  reflexivity.
Qed.

(** X12. For a conda executable found at P/<dir>/conda, the setup script
    sourced is P/etc/profile.d/conda.sh: the trailing newline of the
    [which] output is stripped and the path climbs two levels.  [P] is a
    non-empty path that does not start with white space nor end in a
    slash, [dir] a non-empty directory name. *)
Theorem find_conda_setup_prefix (P dir : string) (w : World) :
  host_check_output_which host "conda" =
    Ok (P +:+ "/" +:+ dir +:+ "/conda" +:+ nl) ->
  P ≠ "" -> Py.lstrip_by Py.isspace P = P ->
  posixpath.endswith_sep P = false ->
  dir ≠ "" -> str_forallb not_sep dir = true ->
  run (find_conda_setup host) w = (Ok (P +:+ "/etc/profile.d/conda.sh"), w).
Proof.
  intros Hconda HP Hlead Hend Hdir Hnosep.
  by rewrite run_find_conda_setup, Hconda, conda_setup_of_prefix.
Qed.

(** X13. When both tools are found, the shell command leaves both
    temporary files and the [diff] step succeeds, [compare_envs]
    completes: it prints the table for the diff text and leaves the
    working directory as the shell command left it, minus the two
    temporary files. *)
Theorem compare_envs_success (env1 env2 which_conda diff_output : string)
    (w : World) :
  let fs := host_system host
              (list_command (conda_setup_of which_conda) env1 env2)
              (files w) in
  host_call_which host "diff" = 0 ->
  host_check_output_which host "conda" = Ok which_conda ->
  is_Some (fs !! "env1_packages.txt") ->
  is_Some (fs !! "env2_packages.txt") ->
  host_run_diff host (fs !! "env1_packages.txt") (fs !! "env2_packages.txt") =
    Ok diff_output ->
  run (compare_envs host env1 env2) w =
    (Ok tt,
     {| files := delete "env2_packages.txt" (delete "env1_packages.txt" fs);
        stdout := stdout w ++ table_header env1 env2 ++
          (render_row <$> omap classify (Py.splitlines diff_output)) |}).
Proof.
  intros fs Hdiff Hconda [c1 H1] [c2 H2] Hrun.
  rewrite (run_compare_envs_after_setup _ _ _ _ Hdiff Hconda).
  fold fs. cbn zeta. rewrite Hrun, run_bind.
  unfold os_remove. cbn [run files stdout]. rewrite H1. cbn [files stdout].
  by rewrite lookup_delete_ne, H2.
Qed.

(** X14. When the [diff] step raises, [compare_envs] raises the same
    error with nothing printed, and the working directory stays as the
    shell command left it: whatever temporary files it wrote remain. *)
Theorem compare_envs_diff_raises (env1 env2 which_conda : string)
    (w : World) (e : Exn) :
  let fs := host_system host
              (list_command (conda_setup_of which_conda) env1 env2)
              (files w) in
  host_call_which host "diff" = 0 ->
  host_check_output_which host "conda" = Ok which_conda ->
  host_run_diff host (fs !! "env1_packages.txt") (fs !! "env2_packages.txt") =
    Raise e ->
  run (compare_envs host env1 env2) w =
    (Raise e, {| files := fs; stdout := stdout w |}).
Proof.
  intros fs Hdiff Hconda Hrun.
  rewrite (run_compare_envs_after_setup _ _ _ _ Hdiff Hconda).
  fold fs. cbn zeta. by rewrite Hrun.
Qed.

(** X15. When the shell command did not leave one of the temporary files
    (an environment could not be activated), the table is still printed
    and the clean-up then raises FileNotFoundError: for a missing first
    file nothing is removed, so a second file stays behind; for a missing
    second file the first has already been removed. *)
Theorem compare_envs_missing_temp_file (env1 env2 which_conda diff_output : string)
    (w : World) :
  let fs := host_system host
              (list_command (conda_setup_of which_conda) env1 env2)
              (files w) in
  let printed := stdout w ++ table_header env1 env2 ++
                 (render_row <$> omap classify (Py.splitlines diff_output)) in
  host_call_which host "diff" = 0 ->
  host_check_output_which host "conda" = Ok which_conda ->
  host_run_diff host (fs !! "env1_packages.txt") (fs !! "env2_packages.txt") =
    Ok diff_output ->
  (fs !! "env1_packages.txt" = None ->
   run (compare_envs host env1 env2) w =
     (Raise (FileNotFoundError "env1_packages.txt"),
      {| files := fs; stdout := printed |})) /\
  (is_Some (fs !! "env1_packages.txt") ->
   fs !! "env2_packages.txt" = None ->
   run (compare_envs host env1 env2) w =
     (Raise (FileNotFoundError "env2_packages.txt"),
      {| files := delete "env1_packages.txt" fs; stdout := printed |})).
Proof.
  intros fs printed Hdiff Hconda Hrun.
  rewrite (run_compare_envs_after_setup _ _ _ _ Hdiff Hconda).
  fold fs. cbn zeta. rewrite Hrun, run_bind.
  unfold os_remove. cbn [run files stdout]. split.
  - by intros ->.
  - intros [c1 ->] H2. cbn [files stdout].
    by rewrite lookup_delete_ne, H2.
Qed.

(** X16. On every path, failing or not, [compare_envs] itself leaves
    every other file alone: a file that is neither of the two temporary
    files and that the shell command does not touch is, afterwards, what
    it was before. *)
Theorem compare_envs_other_files (env1 env2 p : string) (w : World) :
  p ≠ "env1_packages.txt" -> p ≠ "env2_packages.txt" ->
  (forall command fs, host_system host command fs !! p = fs !! p) ->
  files (run (compare_envs host env1 env2) w).2 !! p = files w !! p.
Proof.
  intros Hp1 Hp2 Hframe.
  destruct (decide (host_call_which host "diff" = 0)) as [Hdiff|Hdiff];
    [|by rewrite run_compare_envs_without_diff].
  destruct (host_check_output_which host "conda") as [wc|e] eqn:Hconda;
    [|by rewrite (run_compare_envs_without_conda _ _ _ e)].
  rewrite (run_compare_envs_after_setup _ _ _ _ Hdiff Hconda). cbn zeta.
  destruct (host_run_diff host _ _) as [diff_output|e]; [|by cbn].
  rewrite run_bind. unfold os_remove. cbn [run files stdout].
  destruct (host_system host _ (files w) !! "env1_packages.txt"); [|by cbn].
  cbn [files stdout].
  destruct (delete "env1_packages.txt" _ !! "env2_packages.txt"); cbn.
  - by rewrite !lookup_delete_ne.
  - by rewrite lookup_delete_ne.
Qed.

End DriverMore.

(** ** The layout of a row *)

Lemma str_length_app (s t : string) :
  String.length (s +:+ t) = (String.length s + String.length t)%nat.
Proof.
  induction s as [|a s IH]; [done|]. rewrite str_app_cons. cbn. by rewrite IH.
Qed.

Lemma spaces_length (n : nat) : String.length (Py.spaces n) = n.
Proof. induction n as [|n IH]; [done|]. cbn. by rewrite IH. Qed.

Lemma ljust_length (w : nat) (s : string) :
  String.length (Py.ljust w s) = Nat.max w (String.length s).
Proof. unfold Py.ljust. rewrite str_length_app, spaces_length. lia. Qed.

Lemma slice_from_app (s t : string) :
  Py.slice_from (String.length s) (s +:+ t) = t.
Proof. induction s as [|a s IH]; [by destruct t|]. by rewrite str_app_cons. Qed.

Lemma slice_from_add (n : nat) (s t : string) :
  Py.slice_from (String.length s + n) (s +:+ t) = Py.slice_from n t.
Proof.
  induction s as [|a s IH]; [done|]. by rewrite str_app_cons.
Qed.

(** X17. The package column is padded, never truncated.  For a package
    text of at most 40 characters every row is 91 characters long and its
    two presence columns start at the fixed offset 46; a longer text is
    printed in full and makes its row longer by the excess. *)
Theorem row_layout (package : string) :
  ((String.length package <= 40)%nat ->
   String.length (present_absent_line package) = 91%nat /\
   String.length (absent_present_line package) = 91%nat /\
   Py.slice_from 46 (present_absent_line package) =
     Py.ljust 20 "Present" +:+ " " +:+ Py.ljust 20 "Absent" +:+ esc +:+ "[0m" /\
   Py.slice_from 46 (absent_present_line package) =
     Py.ljust 20 "Absent" +:+ " " +:+ Py.ljust 20 "Present" +:+ esc +:+ "[0m") /\
  ((40 < String.length package)%nat ->
   String.length (present_absent_line package) =
     (51 + String.length package)%nat /\
   String.length (absent_present_line package) =
     (51 + String.length package)%nat /\
   contains (present_absent_line package) package /\
   contains (absent_present_line package) package).
Proof.
  assert (forall colour tail,
            String.length (esc +:+ colour +:+ Py.ljust 40 package +:+ tail) =
            (String.length (esc +:+ colour) +
             Nat.max 40 (String.length package) + String.length tail)%nat)
    as Hlen.
  { intros colour tail. rewrite <- (str_app_assoc esc).
    rewrite !str_length_app, ljust_length. lia. }
  assert (forall colour tail,
            (String.length package <= 40)%nat ->
            String.length (esc +:+ colour) = 5%nat ->
            Py.slice_from 46 (esc +:+ colour +:+ Py.ljust 40 package +:+ " " +:+ tail)
            = tail) as Hslice.
  { intros colour tail Hle Hc.
    replace (esc +:+ colour +:+ Py.ljust 40 package +:+ " " +:+ tail)
      with (((esc +:+ colour) +:+ Py.ljust 40 package +:+ " ") +:+ tail)
      by (by rewrite !str_app_assoc).
    replace 46%nat
      with (String.length ((esc +:+ colour) +:+ Py.ljust 40 package +:+ " ")).
    - apply slice_from_app.
    - rewrite (str_length_app (esc +:+ colour)),
        (str_length_app (Py.ljust 40 package)), ljust_length, Hc. cbn. lia. }
  assert (forall colour first second,
            String.length (esc +:+ colour) = 5%nat ->
            String.length (" " +:+ Py.ljust 20 first +:+ " " +:+
                           Py.ljust 20 second +:+ esc +:+ "[0m") = 46%nat ->
            String.length
              (esc +:+ colour +:+ Py.ljust 40 package +:+ " " +:+
               Py.ljust 20 first +:+ " " +:+ Py.ljust 20 second +:+
               esc +:+ "[0m") =
            (51 + Nat.max 40 (String.length package))%nat) as Hrow.
  { intros colour first second Hc Ht. rewrite Hlen, Hc, Ht. lia. }
  unfold present_absent_line, absent_present_line. split.
  - intros Hle. split_and!.
    + rewrite Hrow by reflexivity. lia.
    + rewrite Hrow by reflexivity. lia.
    + by apply Hslice.
    + by apply Hslice.
  - intros Hlt. split_and!.
    + rewrite Hrow by reflexivity. lia.
    + rewrite Hrow by reflexivity. lia.
    + do 2 apply contains_app_l. unfold Py.ljust. rewrite str_app_assoc.
      apply contains_app_r, contains_refl.
    + do 2 apply contains_app_l. unfold Py.ljust. rewrite str_app_assoc.
      apply contains_app_r, contains_refl.
Qed.

(** ** The arguments [execute] prepares *)

(** X18. The specification list is the "conda" dependencies followed by
    the "pip" dependencies; dependencies filed under any other key are
    never checked; and when the check returns, the explanation lines of
    the conda entries stand before those of the pip entries. *)
Theorem specification_pkgs_of_order `{MatchSpecAPI}
    (dependencies : gmap string (list string)) :
  let conda := default [] (dependencies !! "conda") in
  let pip := default [] (dependencies !! "pip") in
  specification_pkgs_of dependencies = conda ++ pip /\
  (forall k v, k ≠ "conda" -> k ≠ "pip" ->
     specification_pkgs_of (<[k := v]> dependencies) =
     specification_pkgs_of dependencies) /\
  (forall I code out,
     compare_packages I (specification_pkgs_of dependencies) = Ok (code, out) ->
     out = if nonempty (report_lines I conda ++ report_lines I pip)
           then report_lines I conda ++ report_lines I pip
           else [success_msg]).
Proof.
  intros conda pip.
  assert (specification_pkgs_of dependencies = conda ++ pip) as Heq.
  { unfold specification_pkgs_of, conda, pip.
    destruct (dependencies !! "conda"), (dependencies !! "pip"); cbn;
      by rewrite ?app_nil_r. }
  split_and!; [exact Heq| |].
  - intros k v Hc Hp. unfold specification_pkgs_of.
    by rewrite !lookup_insert_ne.
  - intros I code out (_ & _ & ->)%compare_packages_Ok_lines.
    by rewrite Heq, report_lines_app.
Qed.

Lemma before_sep_none (sep s : string) :
  containsb s sep = false -> before_sep sep s = s.
Proof.
  induction s as [|c s IH]; cbn.
  - by destruct (prefixb sep "").
  - intros [-> Hs]%orb_false_iff. by rewrite IH.
Qed.

Lemma before_sep_scheme (scheme rest : string) :
  str_forallb not_colon scheme = true ->
  before_sep "://" (scheme +:+ "://" +:+ rest) = scheme.
Proof.
  induction scheme as [|c scheme IH]; [done|].
  cbn [str_forallb]. intros [Hc Hs]%andb_true_iff.
  rewrite str_app_cons. cbn [before_sep prefixb].
  unfold not_colon in Hc. apply negb_true_iff, bool_decide_eq_false in Hc.
  rewrite bool_decide_false by (by intros <-). cbn [andb]. by rewrite IH.
Qed.

(** X19. A file argument "<scheme>://..." whose scheme is one of the
    session schemes is handed on unchanged; any other argument is made an
    absolute, expanded local path.  The test looks at the text before the
    first "://" only, and at the whole argument when it has none: a
    relative file named exactly like a scheme is handed on unchanged
    too. *)
Theorem execute_filename_cases (CONDA_SESSION_SCHEMES : gset string)
    (abspath_expanded : string -> string) :
  (forall scheme rest,
     scheme ∈ CONDA_SESSION_SCHEMES -> str_forallb not_colon scheme = true ->
     execute_filename CONDA_SESSION_SCHEMES abspath_expanded
       (scheme +:+ "://" +:+ rest) = scheme +:+ "://" +:+ rest) /\
  (forall scheme rest,
     scheme ∉ CONDA_SESSION_SCHEMES -> str_forallb not_colon scheme = true ->
     execute_filename CONDA_SESSION_SCHEMES abspath_expanded
       (scheme +:+ "://" +:+ rest) =
     abspath_expanded (scheme +:+ "://" +:+ rest)) /\
  (forall file,
     containsb file "://" = false ->
     execute_filename CONDA_SESSION_SCHEMES abspath_expanded file =
       if bool_decide (file ∈ CONDA_SESSION_SCHEMES) then file
       else abspath_expanded file).
Proof.
  unfold execute_filename. split_and!.
  - intros scheme rest Hin Hs.
    by rewrite before_sep_scheme, bool_decide_true.
  - intros scheme rest Hin Hs.
    by rewrite before_sep_scheme, bool_decide_false.
  - intros file Hnone. by rewrite before_sep_none.
Qed.

(** ** The further properties on the example scenarios *)

Section MoreScenarios.
#[local] Existing Instance simple_match_spec.
Import Scenario Hosts.

Lemma compare_packages_returns_iff_witness :
  Forall well_formed ["numpy=1.3"; "requests"; "flask"] /\
  is_Ok (compare_packages inventory ["numpy=1.3"; "requests"; "flask"]).
Proof.
  split; [exact inventory_specs_well_formed|].
  exact (proj2 (compare_packages_returns_iff inventory _)
           inventory_specs_well_formed).
Defined.

Lemma compare_packages_zero_iff_witness :
  (exists out, compare_packages inventory ["numpy=1.2=0"; "requests"] =
                 Ok (0, out)) /\
  Forall (matched inventory) ["numpy=1.2=0"; "requests"].
Proof.
  assert (exists out, compare_packages inventory ["numpy=1.2=0"; "requests"] =
                        Ok (0, out)) as Hzero by (by eexists).
  split; [exact Hzero|].
  exact (proj1 (compare_packages_zero_iff inventory _) Hzero).
Defined.

Lemma compare_packages_app_witness :
  compare_packages inventory ["numpy=1.3"] =
    Ok (1, [mismatch_line "numpy" "numpy=1.3" numpy]) /\
  compare_packages inventory ["requests"] = Ok (0, [success_msg]) /\
  compare_packages inventory (["numpy=1.3"] ++ ["requests"]) =
    Ok (1, [mismatch_line "numpy" "numpy=1.3" numpy]).
Proof.
  assert (compare_packages inventory ["numpy=1.3"] =
            Ok (1, [mismatch_line "numpy" "numpy=1.3" numpy])) as H1
    by reflexivity.
  assert (compare_packages inventory ["requests"] = Ok (0, [success_msg]))
    as H2 by reflexivity.
  split_and!; [exact H1|exact H2|].
  exact (proj1 (compare_packages_app inventory _ _) _ _ _ _ H1 H2).
Defined.

Lemma compare_packages_inventory_frame_witness :
  (forall e s, e ∈ ["numpy=1.3"; "flask"] -> MatchSpec_new e = Ok s ->
     inventory !! MatchSpec_name s =
     <["scipy" := PackageRecord.mk "scipy" "1.0" "0"]> inventory
       !! MatchSpec_name s) /\
  compare_packages inventory ["numpy=1.3"; "flask"] =
  compare_packages (<["scipy" := PackageRecord.mk "scipy" "1.0" "0"]> inventory)
    ["numpy=1.3"; "flask"].
Proof.
  assert (forall e s, e ∈ ["numpy=1.3"; "flask"] -> MatchSpec_new e = Ok s ->
            inventory !! MatchSpec_name s =
            <["scipy" := PackageRecord.mk "scipy" "1.0" "0"]> inventory
              !! MatchSpec_name s) as Hagree.
  { intros e s Hin Hs.
    apply elem_of_cons in Hin as [->|Hin];
      [|apply list_elem_of_singleton in Hin as ->];
      injection Hs as <-; reflexivity. }
  split; [exact Hagree|].
  exact (compare_packages_inventory_frame inventory _ _ Hagree).
Defined.

Lemma compare_packages_repeated_witness :
  well_formed "flask" /\
  report_line inventory "flask" = Some "flask not found" /\
  (0 < 3)%nat /\
  compare_packages inventory (replicate 3 "flask") =
    Ok (1, replicate 3 "flask not found").
Proof.
  assert (0 < 3)%nat as Hn by lia.
  split_and!; [exact I|reflexivity|exact Hn|].
  exact (compare_packages_repeated inventory "flask" "flask not found" 3
           I eq_refl Hn).
Defined.

Lemma active_pkgs_of_last_wins_witness :
  (forall q, q ∈ [flask] ->
     PackageRecord.name q ≠ PackageRecord.name numpy) /\
  active_pkgs_of ([requests; numpy_old] ++ numpy :: [flask]) !! "numpy" =
    Some numpy.
Proof.
  assert (forall q, q ∈ [flask] ->
            PackageRecord.name q ≠ PackageRecord.name numpy) as Hpost.
  { intros q ->%list_elem_of_singleton. discriminate. }
  split; [exact Hpost|].
  exact (active_pkgs_of_last_wins [requests; numpy_old] [flask] numpy Hpost).
Defined.

Lemma active_pkgs_of_lookup_witness :
  inventory !! "numpy" = Some numpy /\
  numpy ∈ [numpy; requests] /\ PackageRecord.name numpy = "numpy".
Proof.
  assert (inventory !! "numpy" = Some numpy) as Hnumpy by reflexivity.
  split; [exact Hnumpy|].
  exact (proj1 (active_pkgs_of_lookup [numpy; requests] "numpy") numpy Hnumpy).
Defined.

Lemma get_packages_sorted_witness :
  os_path_isdir prefixes "/opt/conda/envs/test" = true /\
  os_path_isdir prefixes "/nowhere" = false /\
  get_packages prefixes "/nowhere" =
    inl (EnvironmentLocationNotFound "/nowhere") /\
  exists pkgs,
    get_packages prefixes "/opt/conda/envs/test" = inr pkgs /\
    pkgs ≡ₚ [requests; numpy_old; flask; numpy] /\
    StronglySorted name_le pkgs.
Proof.
  split_and!; [reflexivity|reflexivity| |].
  - exact (proj1 (get_packages_sorted prefixes "/nowhere") eq_refl).
  - exact (proj2 (get_packages_sorted prefixes "/opt/conda/envs/test") eq_refl).
Defined.

Lemma get_packages_inventory_witness :
  get_packages prefixes "/opt/conda/envs/test" =
    inr [flask; numpy_old; numpy; requests] /\
  active_pkgs_of [flask; numpy_old; numpy; requests] =
    active_pkgs_of [requests; numpy_old; flask; numpy].
Proof.
  assert (get_packages prefixes "/opt/conda/envs/test" =
            inr [flask; numpy_old; numpy; requests]) as Hget by reflexivity.
  split; [exact Hget|].
  exact (get_packages_inventory prefixes _ _ Hget).
Defined.

Lemma compare_envs_diff_missing_witness :
  host_call_which no_diff_host "diff" ≠ 0 /\
  run (compare_envs no_diff_host "base" "test") notes_world =
    (Raise (SystemExit 1),
     {| files := files notes_world;
        stdout := stdout notes_world ++
          ["diff command could not be found. Please install it to proceed."] |}).
Proof.
  assert (host_call_which no_diff_host "diff" ≠ 0) as Hwhich by discriminate.
  split; [exact Hwhich|].
  exact (compare_envs_diff_missing no_diff_host "base" "test" notes_world Hwhich).
Defined.

Lemma compare_envs_conda_missing_witness :
  host_call_which no_conda_host "diff" = 0 /\
  host_check_output_which no_conda_host "conda" =
    Raise (CalledProcessError ["which"; "conda"]) /\
  run (compare_envs no_conda_host "base" "test") notes_world =
    (Raise (CalledProcessError ["which"; "conda"]), notes_world).
Proof.
  split_and!; [reflexivity..|].
  exact (compare_envs_conda_missing no_conda_host "base" "test" notes_world _
           eq_refl eq_refl).
Defined.

Lemma find_conda_setup_prefix_witness :
  host_check_output_which good_host "conda" =
    Ok ("/opt/conda" +:+ "/" +:+ "bin" +:+ "/conda" +:+ nl) /\
  "/opt/conda" ≠ "" /\
  Py.lstrip_by Py.isspace "/opt/conda" = "/opt/conda" /\
  posixpath.endswith_sep "/opt/conda" = false /\
  "bin" ≠ "" /\ str_forallb not_sep "bin" = true /\
  run (find_conda_setup good_host) empty_world =
    (Ok ("/opt/conda" +:+ "/etc/profile.d/conda.sh"), empty_world).
Proof.
  assert ("/opt/conda" ≠ "") as HP by discriminate.
  assert ("bin" ≠ "") as Hdir by discriminate.
  split_and!; [reflexivity|exact HP|reflexivity|reflexivity|exact Hdir
              |reflexivity|].
  exact (find_conda_setup_prefix good_host "/opt/conda" "bin" empty_world
           eq_refl HP eq_refl eq_refl Hdir eq_refl).
Defined.

Lemma compare_envs_success_witness :
  run (compare_envs good_host "base" "test") notes_world =
    (Ok tt,
     {| files := delete "env2_packages.txt"
                   (delete "env1_packages.txt" (list_envs (files notes_world)));
        stdout := stdout notes_world ++ table_header "base" "test" ++
          (render_row <$> omap classify (Py.splitlines diff_text)) |}) /\
  delete "env2_packages.txt"
    (delete "env1_packages.txt" (list_envs (files notes_world))) =
    files notes_world.
Proof.
  split; [|by vm_compute].
  apply (compare_envs_success good_host "base" "test"
           ("/opt/conda/bin/conda" +:+ nl) diff_text notes_world);
    try reflexivity; by eexists.
Defined.

Lemma compare_envs_diff_raises_witness :
  run (compare_envs failing_diff_host "base" "test") notes_world =
    (Raise OSError,
     {| files := list_envs (files notes_world);
        stdout := stdout notes_world |}).
Proof.
  exact (compare_envs_diff_raises failing_diff_host "base" "test"
           ("/opt/conda/bin/conda" +:+ nl) notes_world OSError
           eq_refl eq_refl eq_refl).
Defined.

Lemma compare_envs_missing_temp_file_witness :
  run (compare_envs second_file_only_host "base" "test") empty_world =
    (Raise (FileNotFoundError "env1_packages.txt"),
     {| files := {["env2_packages.txt" := "bar-2.0" +:+ nl]};
        stdout := table_header "base" "test" |}) /\
  run (compare_envs first_file_only_host "base" "test") empty_world =
    (Raise (FileNotFoundError "env2_packages.txt"),
     {| files := ∅; stdout := table_header "base" "test" |}).
Proof.
  split.
  - rewrite (proj1 (compare_envs_missing_temp_file second_file_only_host
                      "base" "test" ("/opt/conda/bin/conda" +:+ nl) ""
                      empty_world eq_refl eq_refl eq_refl) eq_refl).
    reflexivity.
  - rewrite (proj2 (compare_envs_missing_temp_file first_file_only_host
                      "base" "test" ("/opt/conda/bin/conda" +:+ nl) ""
                      empty_world eq_refl eq_refl eq_refl)
               (ex_intro _ _ eq_refl) eq_refl).
    reflexivity.
Defined.

Lemma compare_envs_other_files_witness :
  "notes.txt" ≠ "env1_packages.txt" /\ "notes.txt" ≠ "env2_packages.txt" /\
  (forall command fs,
     host_system failing_diff_host command fs !! "notes.txt" =
     fs !! "notes.txt") /\
  files (run (compare_envs failing_diff_host "base" "test") notes_world).2
    !! "notes.txt" = Some "keep".
Proof.
  assert ("notes.txt" ≠ "env1_packages.txt") as H1 by discriminate.
  assert ("notes.txt" ≠ "env2_packages.txt") as H2 by discriminate.
  assert (forall command fs,
            host_system failing_diff_host command fs !! "notes.txt" =
            fs !! "notes.txt") as Hframe.
  { intros command fs. cbn. unfold list_envs.
    by rewrite !lookup_insert_ne. }
  split_and!; [exact H1|exact H2|exact Hframe|].
  exact (compare_envs_other_files failing_diff_host "base" "test" "notes.txt"
           notes_world H1 H2 Hframe).
Defined.

Lemma row_layout_witness :
  (String.length "foo-1.0" <= 40)%nat /\
  String.length (present_absent_line "foo-1.0") = 91%nat /\
  Py.slice_from 46 (absent_present_line "foo-1.0") =
    Py.ljust 20 "Absent" +:+ " " +:+ Py.ljust 20 "Present" +:+ esc +:+ "[0m".
Proof.
  assert (String.length "foo-1.0" <= 40)%nat as Hle by (cbn; lia).
  destruct (proj1 (row_layout "foo-1.0") Hle) as (Hlen & _ & _ & Hslice).
  split_and!; [exact Hle|exact Hlen|exact Hslice].
Defined.

Lemma specification_pkgs_of_order_witness :
  specification_pkgs_of
    {["pip" := ["flask"]; "conda" := ["numpy=1.3"]; "channels" := ["defaults"]]} =
    ["numpy=1.3"; "flask"] /\
  specification_pkgs_of
    (<["channels" := ["defaults"]]> {["pip" := ["flask"]]}) =
    specification_pkgs_of {["pip" := ["flask"]]}.
Proof.
  split.
  - rewrite (proj1 (specification_pkgs_of_order _)). reflexivity.
  - apply (proj1 (proj2 (specification_pkgs_of_order _))); discriminate.
Defined.

Lemma execute_filename_cases_witness :
  "https" ∈ ({["http"; "https"; "file"]} : gset string) /\
  str_forallb not_colon "https" = true /\
  execute_filename {["http"; "https"; "file"]} (fun f => "/cwd/" +:+ f)
    ("https" +:+ "://" +:+ "example.org/environment.yml") =
    "https://example.org/environment.yml" /\
  execute_filename {["http"; "https"; "file"]} (fun f => "/cwd/" +:+ f)
    "environment.yml" = "/cwd/environment.yml".
Proof.
  assert ("https" ∈ ({["http"; "https"; "file"]} : gset string)) as Hin
    by (by vm_compute).
  split_and!; [exact Hin|reflexivity| |].
  - exact (proj1 (execute_filename_cases _ _) "https" _ Hin eq_refl).
  - rewrite (proj2 (proj2 (execute_filename_cases _ _))) by reflexivity.
    reflexivity.
Defined.

End MoreScenarios.
